(** * adafruit_dps310: the DPS310 barometric pressure sensor driver

    A shallow embedding of [adafruit_dps310.py] and the properties of its
    calibration-compensated measurement pipeline.

    Python integers are [Z]; the bit operations of the source ([&], [|],
    [<<], [>>], [~]) are [Z.land], [Z.lor], [Z.shiftl], [Z.shiftr] and
    [Z.lnot], which agree with Python on negative operands too.  The
    dictionaries that [CV.add_values] builds are [gmap]s.  Methods that talk
    to the sensor run in a state-and-exception monad over the driver object,
    the device behind the bus and the log of bus transactions.  A call
    [self.name(...)] is resolved by name in the class of the instance, so
    the methods that make such a call take that class as an argument;
    [DPS310_class] is the class of the source.  Python's [float] is an
    interface with two instances, exact rationals and binary64. *)

From stdpp Require Import gmap strings list.
From Stdlib Require Import ZArith Lia QArith Floats Uint63.
From coqutil Require Import Z.bitblast.

Local Open Scope Z_scope.

(** ** Python outcomes *)

(** The exceptions the driver and its helpers can raise. *)
Inductive exn : Type :=
| RuntimeError
| AttributeError
| IndexError
| TypeError
| ZeroDivisionError
| ValueError
| StructError.

(** The outcome of running a piece of Python: a value, a raised exception, or
    a polling loop that is still spinning when the fuel of the model ends. *)
Inductive outcome (A : Type) : Type :=
| Ok (a : A)
| Raise (e : exn)
| OutOfFuel.

Arguments Ok {A} a.
Arguments Raise {A} e.
Arguments OutOfFuel {A}.

Definition obind {A B : Type} (o : outcome A) (k : A -> outcome B) : outcome B :=
  match o with
  | Ok a => k a
  | Raise e => Raise e
  | OutOfFuel => OutOfFuel
  end.

#[export] Instance outcome_ret : MRet outcome := fun A a => Ok a.
#[export] Instance outcome_bind : MBind outcome := fun A B k o => obind o k.

(** ** BitField codec *)

(** [DPS310._twos_complement(val, bits)], lines 291-296.  [1 << n] raises
    [ValueError] on a negative shift count, so [bits] below 1 never reaches
    the test. *)
Definition _twos_complement (val bits : Z) : outcome Z :=
  if bits <? 1 then Raise ValueError
  else if negb (Z.land val (Z.shiftl 1 (bits - 1)) =? 0)
       then Ok (val - Z.shiftl 1 bits)
       else Ok val.

(** The [w]-bit two's-complement pattern of a signed value. *)
Definition encode_twos (s w : Z) : Z := s mod 2 ^ w.

(** The field widths the driver uses. *)
Definition device_widths : list Z := [12; 16; 20; 24].

(** ** The CV enumerations *)

(** The display value of an enumeration member: a string for [Mode], a
    number for [Rate] and [Samples]. *)
Inductive label : Type :=
| LStr (s : string)
| LInt (n : Z).

(** A class derived from [CV] after [add_values] has run on it: the class
    attributes that [setattr] created and the two dictionaries. *)
Record CV : Type := mkCV {
  CV_attrs : gmap string Z;
  CV_string : gmap Z label;
  CV_lsb : gmap Z (option Z)
}.

Definition value_tuple : Type := string * Z * label * option Z.

(** [CV.add_values(cls, value_tuples)], lines 74-84. *)
Definition add_values (value_tuples : list value_tuple) : CV :=
  fold_left
    (fun cls (value_tuple : value_tuple) =>
       let '(name, value, str, lsb) := value_tuple in
       mkCV (<[name := value]> (CV_attrs cls))
            (<[value := str]> (CV_string cls))
            (<[value := lsb]> (CV_lsb cls)))
    value_tuples (mkCV ∅ ∅ ∅).

(** [CV.is_valid(cls, value)], lines 86-89: [value in cls.string]. *)
Definition is_valid (cls : CV) (value : Z) : bool :=
  bool_decide (is_Some (CV_string cls !! value)).

(** Reading a class attribute such as [Samples.COUNT_8]. *)
Definition cv_attr (cls : CV) (name : string) : outcome Z :=
  match CV_attrs cls !! name with
  | Some value => Ok value
  | None => Raise AttributeError
  end.

(** Lines 91-102. *)
Definition Mode : CV := add_values
  [ ("IDLE"%string, 0, LStr "Idle", None);
    ("ONE_PRESSURE"%string, 1, LStr "One-Shot Pressure", None);
    ("ONE_TEMPERATURE"%string, 2, LStr "One-Shot Temperature", None);
    ("CONT_PRESSURE"%string, 5, LStr "Continuous Pressure", None);
    ("CONT_TEMP"%string, 6, LStr "Continuous Temperature", None);
    ("CONT_PRESTEMP"%string, 7, LStr "Continuous Pressure & Temperature", None) ].

(** Lines 104-117. *)
Definition Rate : CV := add_values
  [ ("RATE_1_HZ"%string, 0, LInt 1, None);
    ("RATE_2_HZ"%string, 1, LInt 2, None);
    ("RATE_4_HZ"%string, 2, LInt 4, None);
    ("RATE_8_HZ"%string, 3, LInt 8, None);
    ("RATE_16_HZ"%string, 4, LInt 16, None);
    ("RATE_32_HZ"%string, 5, LInt 32, None);
    ("RATE_64_HZ"%string, 6, LInt 64, None);
    ("RATE_128_HZ"%string, 7, LInt 128, None) ].

(** Lines 119-132. *)
Definition Samples : CV := add_values
  [ ("COUNT_1"%string, 0, LInt 1, None);
    ("COUNT_2"%string, 1, LInt 2, None);
    ("COUNT_4"%string, 2, LInt 4, None);
    ("COUNT_8"%string, 3, LInt 8, None);
    ("COUNT_16"%string, 4, LInt 16, None);
    ("COUNT_32"%string, 5, LInt 32, None);
    ("COUNT_64"%string, 6, LInt 64, None);
    ("COUNT_128"%string, 7, LInt 128, None) ].

(** ** Register addresses, lines 55-66 *)

Definition _DPS310_DEFAULT_ADDRESS : Z := 0x77.
Definition _DPS310_DEVICE_ID : Z := 0x10.
Definition _DPS310_PRSB2 : Z := 0x00.
Definition _DPS310_TMPB2 : Z := 0x03.
Definition _DPS310_PRSCFG : Z := 0x06.
Definition _DPS310_TMPCFG : Z := 0x07.
Definition _DPS310_MEASCFG : Z := 0x08.
Definition _DPS310_CFGREG : Z := 0x09.
Definition _DPS310_RESET : Z := 0x0C.
Definition _DPS310_PRODREVID : Z := 0x0D.
Definition _DPS310_TMPCOEFSRCE : Z := 0x28.

(** ** Python numbers *)

(** What the driver needs of Python's [float]: conversion from [int], true
    division of two [int]s, the three arithmetic operations and the test
    against zero that division performs. *)
Class FloatOps (F : Type) : Type := {
  of_int : Z -> F;
  int_truediv : Z -> Z -> F;
  fadd : F -> F -> F;
  fmul : F -> F -> F;
  fdiv : F -> F -> F;
  fis_zero : F -> bool
}.

(** Exact rational arithmetic as an instance: the reference reading of the
    compensation formulas. *)
#[export] Instance Q_FloatOps : FloatOps Q := {|
  of_int := inject_Z;
  int_truediv := fun a b => Qdiv (inject_Z a) (inject_Z b);
  fadd := Qplus;
  fmul := Qmult;
  fdiv := Qdiv;
  fis_zero := fun x => Qeq_bool x 0
|}.

(** IEEE 754 binary64, the [float] of CPython.  [b64_of_int] is exact for
    integers below [2^53] in magnitude, which covers the 24-bit counts, the
    coefficients and the scale factors; on that range the quotient of two
    integers is the correctly rounded quotient of their conversions. *)
Definition b64_of_int (n : Z) : float :=
  if n <? 0 then PrimFloat.opp (PrimFloat.of_uint63 (Uint63.of_Z (- n)))
  else PrimFloat.of_uint63 (Uint63.of_Z n).

#[export] Instance b64_FloatOps : FloatOps float := {|
  of_int := b64_of_int;
  int_truediv := fun a b => PrimFloat.div (b64_of_int a) (b64_of_int b);
  fadd := PrimFloat.add;
  fmul := PrimFloat.mul;
  fdiv := PrimFloat.div;
  fis_zero := fun x => PrimFloat.eqb x PrimFloat.zero
|}.

(** The values the measurement code computes with: attributes are [None]
    until they are assigned an [int]; divisions produce [float]s. *)
Inductive pyval (F : Type) : Type :=
| PyNone
| PyInt (n : Z)
| PyFloat (x : F).

Arguments PyNone {F}.
Arguments PyInt {F} n.
Arguments PyFloat {F} x.

Section Arithmetic.
Context {F : Type} `{FloatOps F}.

(** [a + b] *)
Definition py_add (a b : pyval F) : outcome (pyval F) :=
  match a, b with
  | PyInt m, PyInt n => Ok (PyInt (m + n))
  | PyInt m, PyFloat y => Ok (PyFloat (fadd (of_int m) y))
  | PyFloat x, PyInt n => Ok (PyFloat (fadd x (of_int n)))
  | PyFloat x, PyFloat y => Ok (PyFloat (fadd x y))
  | _, _ => Raise TypeError
  end.

(** [a * b] *)
Definition py_mul (a b : pyval F) : outcome (pyval F) :=
  match a, b with
  | PyInt m, PyInt n => Ok (PyInt (m * n))
  | PyInt m, PyFloat y => Ok (PyFloat (fmul (of_int m) y))
  | PyFloat x, PyInt n => Ok (PyFloat (fmul x (of_int n)))
  | PyFloat x, PyFloat y => Ok (PyFloat (fmul x y))
  | _, _ => Raise TypeError
  end.

(** [a / b], true division. *)
Definition py_truediv (a b : pyval F) : outcome (pyval F) :=
  match a, b with
  | PyInt m, PyInt n =>
      if n =? 0 then Raise ZeroDivisionError else Ok (PyFloat (int_truediv m n))
  | PyInt m, PyFloat y =>
      if fis_zero y then Raise ZeroDivisionError else Ok (PyFloat (fdiv (of_int m) y))
  | PyFloat x, PyInt n =>
      if n =? 0 then Raise ZeroDivisionError else Ok (PyFloat (fdiv x (of_int n)))
  | PyFloat x, PyFloat y =>
      if fis_zero y then Raise ZeroDivisionError else Ok (PyFloat (fdiv x y))
  | _, _ => Raise TypeError
  end.

(** A binary operation on two sub-expressions, evaluated left to right. *)
Definition binop (op : pyval F -> pyval F -> outcome (pyval F))
    (a b : outcome (pyval F)) : outcome (pyval F) :=
  obind a (fun x => obind b (fun y => op x y)).

(** The value of an instance attribute that holds [None] or an [int]. *)
Definition attr (o : option Z) : outcome (pyval F) :=
  Ok (match o with Some n => PyInt n | None => PyNone end).
End Arithmetic.

Declare Scope py_scope.
Delimit Scope py_scope with py.
Notation "a +! b" := (binop py_add a b) (at level 50, left associativity) : py_scope.
Notation "a *! b" := (binop py_mul a b) (at level 40, left associativity) : py_scope.
Notation "a /! b" := (binop py_truediv a b) (at level 40, left associativity) : py_scope.

(** ** The bus and the sensor behind it *)

(** The sensor as the driver sees it: a state machine with byte-wide
    registers.  Reading may change the device (status bits are volatile), so
    both operations thread the device state.  A byte read is a [Z]; a real
    transport delivers values in [0, 256). *)
Class Bus (Dev : Type) : Type := {
  read_reg : Dev -> Z -> Z * Dev;
  write_reg : Dev -> Z -> Z -> Dev
}.

(** The two transfers with which [adafruit_bus_device] looks for a device at
    the address: [i2c.writeto(address, b"")], a write of no bytes, and
    [i2c.readfrom_into(address, bytearray(1))], a read of one byte that is
    thrown away.  The boolean is [true] when the transfer is acknowledged and
    [false] when it ends in [OSError]. *)
Class Probe (Dev : Type) : Type := {
  writeto_empty : Dev -> bool * Dev;
  readfrom_one : Dev -> bool * Dev
}.

(** One bus transaction of the driver: [write_then_readinto] sends the
    register address and reads [count] bytes back, [write] sends the
    register address followed by the payload.  The two probes of the address
    name no register and carry no data to the sensor. *)
Inductive event : Type :=
| I2CWriteThenRead (reg : Z) (count : nat)
| I2CWrite (reg : Z) (payload : list Z)
| I2CProbeWrite
| I2CProbeRead.

(** The transactions that write a register of the sensor. *)
Definition is_write (e : event) : bool :=
  match e with
  | I2CWrite _ _ => true
  | I2CWriteThenRead _ _ => false
  | I2CProbeWrite => false
  | I2CProbeRead => false
  end.

(** The instance attributes of a [DPS310] object, lines 181-195. *)
Record DPS310 : Type := mkDPS310 {
  _pressure_scale : option Z;
  _temp_scale : option Z;
  _c0 : option Z;
  _c1 : option Z;
  _c00 : option Z;
  _c10 : option Z;
  _c01 : option Z;
  _c11 : option Z;
  _c20 : option Z;
  _c21 : option Z;
  _c30 : option Z;
  _oversample_scalefactor : list Z
}.

Definition set_pressure_scale (v : Z) (o : DPS310) : DPS310 :=
  mkDPS310 (Some v) (_temp_scale o) (_c0 o) (_c1 o) (_c00 o) (_c10 o) (_c01 o)
    (_c11 o) (_c20 o) (_c21 o) (_c30 o) (_oversample_scalefactor o).
Definition set_temp_scale (v : Z) (o : DPS310) : DPS310 :=
  mkDPS310 (_pressure_scale o) (Some v) (_c0 o) (_c1 o) (_c00 o) (_c10 o) (_c01 o)
    (_c11 o) (_c20 o) (_c21 o) (_c30 o) (_oversample_scalefactor o).
Definition set_c0 (v : Z) (o : DPS310) : DPS310 :=
  mkDPS310 (_pressure_scale o) (_temp_scale o) (Some v) (_c1 o) (_c00 o) (_c10 o)
    (_c01 o) (_c11 o) (_c20 o) (_c21 o) (_c30 o) (_oversample_scalefactor o).
Definition set_c1 (v : Z) (o : DPS310) : DPS310 :=
  mkDPS310 (_pressure_scale o) (_temp_scale o) (_c0 o) (Some v) (_c00 o) (_c10 o)
    (_c01 o) (_c11 o) (_c20 o) (_c21 o) (_c30 o) (_oversample_scalefactor o).
Definition set_c00 (v : Z) (o : DPS310) : DPS310 :=
  mkDPS310 (_pressure_scale o) (_temp_scale o) (_c0 o) (_c1 o) (Some v) (_c10 o)
    (_c01 o) (_c11 o) (_c20 o) (_c21 o) (_c30 o) (_oversample_scalefactor o).
Definition set_c10 (v : Z) (o : DPS310) : DPS310 :=
  mkDPS310 (_pressure_scale o) (_temp_scale o) (_c0 o) (_c1 o) (_c00 o) (Some v)
    (_c01 o) (_c11 o) (_c20 o) (_c21 o) (_c30 o) (_oversample_scalefactor o).
Definition set_c01 (v : Z) (o : DPS310) : DPS310 :=
  mkDPS310 (_pressure_scale o) (_temp_scale o) (_c0 o) (_c1 o) (_c00 o) (_c10 o)
    (Some v) (_c11 o) (_c20 o) (_c21 o) (_c30 o) (_oversample_scalefactor o).
Definition set_c11 (v : Z) (o : DPS310) : DPS310 :=
  mkDPS310 (_pressure_scale o) (_temp_scale o) (_c0 o) (_c1 o) (_c00 o) (_c10 o)
    (_c01 o) (Some v) (_c20 o) (_c21 o) (_c30 o) (_oversample_scalefactor o).
Definition set_c20 (v : Z) (o : DPS310) : DPS310 :=
  mkDPS310 (_pressure_scale o) (_temp_scale o) (_c0 o) (_c1 o) (_c00 o) (_c10 o)
    (_c01 o) (_c11 o) (Some v) (_c21 o) (_c30 o) (_oversample_scalefactor o).
Definition set_c21 (v : Z) (o : DPS310) : DPS310 :=
  mkDPS310 (_pressure_scale o) (_temp_scale o) (_c0 o) (_c1 o) (_c00 o) (_c10 o)
    (_c01 o) (_c11 o) (_c20 o) (Some v) (_c30 o) (_oversample_scalefactor o).
Definition set_c30 (v : Z) (o : DPS310) : DPS310 :=
  mkDPS310 (_pressure_scale o) (_temp_scale o) (_c0 o) (_c1 o) (_c00 o) (_c10 o)
    (_c01 o) (_c11 o) (_c20 o) (_c21 o) (Some v) (_oversample_scalefactor o).

(** The tuple of lines 194-195. *)
Definition oversample_scalefactor : list Z :=
  [524288; 1572864; 3670016; 7864320; 253952; 516096; 1040384; 2088960].

(** The assignments of lines 181-195. *)
Definition fresh_attributes : DPS310 :=
  mkDPS310 None None None None None None None None None None None
    oversample_scalefactor.

(** An object on which [__init__] has not assigned anything yet; none of
    its attributes is read before [fresh_attributes] replaces it. *)
Definition unassigned : DPS310 :=
  mkDPS310 None None None None None None None None None None None [].

(** A driver session: the object, the device and the transactions so far,
    oldest first. *)
Record session (Dev : Type) : Type := mkSession {
  self : DPS310;
  device : Dev;
  bus_log : list event
}.

Arguments mkSession {Dev} self device bus_log.
Arguments self {Dev} s.
Arguments device {Dev} s.
Arguments bus_log {Dev} s.

(** The transactions a run added to the log of [s]. *)
Definition new_events {Dev : Type} (s s' : session Dev) : list event :=
  drop (length (bus_log s)) (bus_log s').

(** ** The monad of driver methods *)

Definition M (Dev A : Type) : Type := session Dev -> outcome A * session Dev.

Definition ret {Dev A : Type} (a : A) : M Dev A := fun s => (Ok a, s).

Definition bind {Dev A B : Type} (m : M Dev A) (k : A -> M Dev B) : M Dev B :=
  fun s =>
    match m s with
    | (Ok a, s') => k a s'
    | (Raise e, s') => (Raise e, s')
    | (OutOfFuel, s') => (OutOfFuel, s')
    end.

Definition raise {Dev A : Type} (e : exn) : M Dev A := fun s => (Raise e, s).

(** A computation without effects, such as an arithmetic expression. *)
Definition pure {Dev A : Type} (o : outcome A) : M Dev A := fun s => (o, s).

Definition get_self {Dev : Type} : M Dev DPS310 := fun s => (Ok (self s), s).

Definition update_self {Dev : Type} (f : DPS310 -> DPS310) : M Dev unit :=
  fun s => (Ok tt, mkSession (f (self s)) (device s) (bus_log s)).

#[export] Instance M_ret {Dev : Type} : MRet (M Dev) := fun A a => ret a.
#[export] Instance M_bind {Dev : Type} : MBind (M Dev) := fun A B k m => bind m k.

(** [while not done: body], cut off after [fuel] tests of the condition. *)
Fixpoint poll_until {Dev : Type} (fuel : nat) (done : M Dev bool) (body : M Dev unit)
    : M Dev unit :=
  match fuel with
  | O => fun s => (OutOfFuel, s)
  | S fuel' =>
      b ← done;
      if b : bool then ret tt else body;; poll_until fuel' done body
  end.

(** [for x in xs: body], where the body updates the local variables [acc]. *)
Fixpoint for_each {Dev A S : Type} (xs : list A) (body : A -> S -> M Dev S) (acc : S)
    : M Dev S :=
  match xs with
  | [] => ret acc
  | x :: xs' => acc' ← body x acc; for_each xs' body acc'
  end.

(** [sleep(seconds)]: time is not part of the model. *)
Definition sleep {Dev : Type} : M Dev unit := ret tt.

(** ** The class namespace *)

(** A member of a class body, as far as calling [self.name(val, bits)] is
    concerned: a static method of two arguments, or anything else. *)
Inductive member : Type :=
| StaticMethod (f : Z -> Z -> outcome Z)
| Descriptor
| Method
| Property.

Definition pyclass : Type := list (string * member).

(** The names bound in the body of [class DPS310], lines 134-330. *)
Definition DPS310_class : pyclass :=
  [ ("_device_id"%string, Descriptor); ("_reset"%string, Descriptor);
    ("_mode_bits"%string, Descriptor);
    ("_pressure_ratebits"%string, Descriptor); ("_pressure_osbits"%string, Descriptor);
    ("_pressure_config"%string, Descriptor);
    ("_temp_ratebits"%string, Descriptor); ("_temp_osbits"%string, Descriptor);
    ("_temp_measurement_src_bit"%string, Descriptor); ("_temp_config"%string, Descriptor);
    ("_pressure_shiftbit"%string, Descriptor); ("_temp_shiftbit"%string, Descriptor);
    ("_coefficients_ready"%string, Descriptor); ("_sensor_ready"%string, Descriptor);
    ("_temp_ready"%string, Descriptor); ("_pressure_ready"%string, Descriptor);
    ("_raw_pressure"%string, Descriptor); ("_raw_temperature"%string, Descriptor);
    ("_calib_coeff_temp_src_bit"%string, Descriptor);
    ("__init__"%string, Method); ("initialize"%string, Method); ("reset"%string, Method);
    ("pressure"%string, Property); ("temperature"%string, Property);
    ("sensor_ready"%string, Property); ("temperature_ready"%string, Property);
    ("pressure_ready"%string, Property); ("mode"%string, Property);
    ("pressure_configuration"%string, Method);
    ("temperature_configuration"%string, Method);
    ("_twos_complement"%string, StaticMethod _twos_complement);
    ("_read_calibration"%string, Method) ].

(** The names [__init__] binds on the instance. *)
Definition instance_attributes : list string :=
  [ "i2c_device"; "_pressure_scale"; "_temp_scale"; "_c0"; "_c1"; "_c00"; "_c10";
    "_c01"; "_c11"; "_c20"; "_c21"; "_c30"; "_oversample_scalefactor" ]%string.

(** A subclass that adds [twos_complement = DPS310._twos_complement] to the
    names it inherits: the binding the calls of lines 225-330 look for. *)
Definition bound_class : pyclass :=
  ("twos_complement"%string, StaticMethod _twos_complement) :: DPS310_class.

Fixpoint class_lookup (cls : pyclass) (name : string) : option member :=
  match cls with
  | [] => None
  | (n, m) :: rest => if String.eqb n name then Some m else class_lookup rest name
  end.

(** The static method that [self.name] resolves to on an instance of [cls].
    A name that is bound nowhere raises [AttributeError]; a name bound to
    something that does not take [(val, bits)] fails when it is called. *)
Definition static_method (cls : pyclass) (name : string)
    : outcome (Z -> Z -> outcome Z) :=
  if bool_decide (name ∈ instance_attributes) then Raise TypeError
  else match class_lookup cls name with
       | Some (StaticMethod f) => Ok f
       | Some _ => Raise TypeError
       | None => Raise AttributeError
       end.

(** [t[i]] on a tuple: negative indices count from the end. *)
Definition tuple_index (t : list Z) (i : Z) : outcome Z :=
  let n := Z.of_nat (length t) in
  let j := if i <? 0 then i + n else i in
  if (j <? 0) || (n <=? j) then Raise IndexError
  else match t !! Z.to_nat j with
       | Some x => Ok x
       | None => Raise IndexError
       end.

(** [l[i]] on the list [coeffs], whose slots hold [None] until filled; the
    bit operations that follow reject [None]. *)
Definition coeff_at (coeffs : list (option Z)) (i : nat) : outcome Z :=
  match coeffs !! i with
  | Some (Some b) => Ok b
  | Some None => Raise TypeError
  | None => Raise IndexError
  end.

Section Driver.
Context {Dev : Type} `{Bus Dev}.

(** *** Bus transactions *)

(** [count] bytes from consecutive registers starting at [reg]. *)
Fixpoint read_burst (d : Dev) (reg : Z) (count : nat) : list Z * Dev :=
  match count with
  | O => ([], d)
  | S count' =>
      let (b, d1) := read_reg d reg in
      let (bs, d2) := read_burst d1 (reg + 1) count' in
      (b :: bs, d2)
  end.

Fixpoint write_burst (d : Dev) (reg : Z) (payload : list Z) : Dev :=
  match payload with
  | [] => d
  | b :: bs => write_burst (write_reg d reg b) (reg + 1) bs
  end.

(** [i2c.write_then_readinto(buffer, buffer, out_end=1, in_start=1)] with
    [buffer[0] = reg] and [count] bytes of room after it. *)
Definition write_then_readinto (reg : Z) (count : nat) : M Dev (list Z) :=
  fun s =>
    let (data, d) := read_burst (device s) reg count in
    (Ok data, mkSession (self s) d (bus_log s ++ [I2CWriteThenRead reg count])).

(** [i2c.write(buffer)] with [buffer = [reg] + payload]. *)
Definition i2c_write (reg : Z) (payload : list Z) : M Dev unit :=
  fun s =>
    (Ok tt, mkSession (self s) (write_burst (device s) reg payload)
              (bus_log s ++ [I2CWrite reg payload])).

(** *** Register descriptors of [adafruit_register] *)

(** [ROUnaryStruct(reg, ">B").__get__] *)
Definition UnaryStruct_get (reg : Z) : M Dev Z :=
  data ← write_then_readinto reg 1;
  ret (hd 0 data).

(** [UnaryStruct(reg, ">B").__set__]: [struct.pack_into] rejects a value
    that is not an unsigned byte. *)
Definition UnaryStruct_set (reg value : Z) : M Dev unit :=
  if (value <? 0) || (255 <? value) then raise StructError
  else i2c_write reg [value].

Definition bit_mask (num_bits lowest_bit : Z) : Z :=
  Z.shiftl (Z.shiftl 1 num_bits - 1) lowest_bit.

(** [for i in order: reg = (reg << 8) | self.buffer[i]] *)
Definition combine (lsb_first : bool) (data : list Z) : Z :=
  fold_left (fun reg b => Z.lor (Z.shiftl reg 8) b)
    (if lsb_first then rev data else data) 0.

(** [ROBits(num_bits, reg, lowest_bit, register_width, lsb_first).__get__],
    and [RWBits.__get__]. *)
Definition Bits_get (num_bits reg lowest_bit : Z) (register_width : nat)
    (lsb_first : bool) : M Dev Z :=
  data ← write_then_readinto reg register_width;
  ret (Z.shiftr (Z.land (combine lsb_first data) (bit_mask num_bits lowest_bit))
         lowest_bit).

(** [RWBits(num_bits, reg, lowest_bit).__set__] on a one-byte register:
    read, clear the field, or the shifted value in, write the low byte. *)
Definition RWBits_set (num_bits reg lowest_bit value : Z) : M Dev unit :=
  let value := Z.shiftl value lowest_bit in
  data ← write_then_readinto reg 1;
  let r := combine true data in
  let r := Z.land r (Z.lnot (bit_mask num_bits lowest_bit)) in
  let r := Z.lor r value in
  i2c_write reg [Z.land r 0xFF].

(** [ROBit(reg, bit).__get__] and [RWBit.__get__] *)
Definition Bit_get (reg bit : Z) : M Dev bool :=
  data ← write_then_readinto reg 1;
  ret (negb (Z.land (hd 0 data) (Z.shiftl 1 (bit mod 8)) =? 0)).

(** [RWBit(reg, bit).__set__] *)
Definition RWBit_set (reg bit : Z) (value : bool) : M Dev unit :=
  data ← write_then_readinto reg 1;
  let b := hd 0 data in
  let mask := Z.shiftl 1 (bit mod 8) in
  i2c_write reg [if value then Z.lor b mask else Z.land b (Z.lnot mask)].

(** *** The register definitions of the class, lines 145-173 *)

Definition _device_id : M Dev Z := UnaryStruct_get _DPS310_PRODREVID.
Definition set__reset (value : Z) : M Dev unit := UnaryStruct_set _DPS310_RESET value.
Definition _mode_bits : M Dev Z := Bits_get 3 _DPS310_MEASCFG 0 1 true.
Definition set__mode_bits (value : Z) : M Dev unit := RWBits_set 3 _DPS310_MEASCFG 0 value.
Definition set__pressure_ratebits (value : Z) : M Dev unit :=
  RWBits_set 3 _DPS310_PRSCFG 4 value.
Definition set__pressure_osbits (value : Z) : M Dev unit :=
  RWBits_set 4 _DPS310_PRSCFG 0 value.
Definition set__temp_ratebits (value : Z) : M Dev unit :=
  RWBits_set 3 _DPS310_TMPCFG 4 value.
Definition set__temp_osbits (value : Z) : M Dev unit :=
  RWBits_set 4 _DPS310_TMPCFG 0 value.
Definition set__temp_measurement_src_bit (value : bool) : M Dev unit :=
  RWBit_set _DPS310_TMPCFG 7 value.
Definition set__pressure_shiftbit (value : bool) : M Dev unit :=
  RWBit_set _DPS310_CFGREG 2 value.
Definition set__temp_shiftbit (value : bool) : M Dev unit :=
  RWBit_set _DPS310_CFGREG 3 value.
Definition _coefficients_ready : M Dev bool := Bit_get _DPS310_MEASCFG 7.
Definition _sensor_ready : M Dev bool := Bit_get _DPS310_MEASCFG 6.
Definition _temp_ready : M Dev bool := Bit_get _DPS310_MEASCFG 5.
Definition _pressure_ready : M Dev bool := Bit_get _DPS310_MEASCFG 4.
Definition _raw_pressure : M Dev Z := Bits_get 24 _DPS310_PRSB2 0 3 false.
Definition _raw_temperature : M Dev Z := Bits_get 24 _DPS310_TMPB2 0 3 false.
Definition _calib_coeff_temp_src_bit : M Dev bool := Bit_get _DPS310_TMPCOEFSRCE 7.

(** *** Methods of [DPS310] *)

(** [self.twos_complement(val, bits)]: the attribute is looked up on the
    class of the instance, then called. *)
Definition self_twos_complement (cls : pyclass) (val bits : Z) : M Dev Z :=
  f ← pure (static_method cls "twos_complement");
  pure (f val bits).

(** [reset], lines 214-218. *)
Definition reset (fuel : nat) : M Dev unit :=
  set__reset 0x89;;
  poll_until fuel _sensor_ready sleep.

(** The loop of lines 303-313: one single-byte read per coefficient byte. *)
Definition read_coefficients : M Dev (list (option Z)) :=
  for_each (seq 0 18)
    (fun offset (coeffs : list (option Z)) =>
       data ← write_then_readinto (0x10 + Z.of_nat offset) 1;
       if bool_decide (offset < length coeffs)%nat
       then ret (<[offset := Some (hd 0 data)]> coeffs)
       else raise IndexError)
    (replicate 18 None).

(** Lines 315-330: the nine coefficients from the eighteen bytes. *)
Definition decode_calibration (cls : pyclass) (coeffs : list (option Z)) : M Dev unit :=
  c ← pure (b0 ← coeff_at coeffs 0; b1 ← coeff_at coeffs 1;
            Ok (Z.lor (Z.shiftl b0 4) (Z.land (Z.shiftr b1 4) 0x0F)));
  update_self (set_c0 c);;
  c ← self_twos_complement cls c 12;
  update_self (set_c0 c);;

  f ← pure (static_method cls "twos_complement");
  c ← pure (b1 ← coeff_at coeffs 1; b2 ← coeff_at coeffs 2;
            f (Z.lor (Z.shiftl (Z.land b1 0x0F) 8) b2) 12);
  update_self (set_c1 c);;

  c ← pure (b3 ← coeff_at coeffs 3; b4 ← coeff_at coeffs 4; b5 ← coeff_at coeffs 5;
            Ok (Z.lor (Z.lor (Z.shiftl b3 12) (Z.shiftl b4 4))
                  (Z.land (Z.shiftr b5 4) 0x0F)));
  update_self (set_c00 c);;
  c ← self_twos_complement cls c 20;
  update_self (set_c00 c);;

  c ← pure (b5 ← coeff_at coeffs 5; b6 ← coeff_at coeffs 6; b7 ← coeff_at coeffs 7;
            Ok (Z.lor (Z.lor (Z.shiftl (Z.land b5 0x0F) 16) (Z.shiftl b6 8)) b7));
  update_self (set_c10 c);;
  c ← self_twos_complement cls c 20;
  update_self (set_c10 c);;

  f ← pure (static_method cls "twos_complement");
  c ← pure (hi ← coeff_at coeffs 8; lo ← coeff_at coeffs 9;
            f (Z.lor (Z.shiftl hi 8) lo) 16);
  update_self (set_c01 c);;
  f ← pure (static_method cls "twos_complement");
  c ← pure (hi ← coeff_at coeffs 10; lo ← coeff_at coeffs 11;
            f (Z.lor (Z.shiftl hi 8) lo) 16);
  update_self (set_c11 c);;
  f ← pure (static_method cls "twos_complement");
  c ← pure (hi ← coeff_at coeffs 12; lo ← coeff_at coeffs 13;
            f (Z.lor (Z.shiftl hi 8) lo) 16);
  update_self (set_c20 c);;
  f ← pure (static_method cls "twos_complement");
  c ← pure (hi ← coeff_at coeffs 14; lo ← coeff_at coeffs 15;
            f (Z.lor (Z.shiftl hi 8) lo) 16);
  update_self (set_c21 c);;
  f ← pure (static_method cls "twos_complement");
  c ← pure (hi ← coeff_at coeffs 16; lo ← coeff_at coeffs 17;
            f (Z.lor (Z.shiftl hi 8) lo) 16);
  update_self (set_c30 c).

(** [_read_calibration], lines 298-330. *)
Definition _read_calibration (cls : pyclass) (fuel : nat) : M Dev unit :=
  poll_until fuel _coefficients_ready sleep;;
  coeffs ← read_coefficients;
  decode_calibration cls coeffs.

(** The [mode] getter, lines 263-266. *)
Definition mode : M Dev Z := _mode_bits.

(** The [mode] setter, lines 268-274. *)
Definition set_mode (value : Z) : M Dev unit :=
  if negb (is_valid Mode value) then raise AttributeError
  else set__mode_bits value.

(** [pressure_configuration], lines 276-281. *)
Definition pressure_configuration (rate oversample : Z) : M Dev unit :=
  set__pressure_ratebits rate;;
  set__pressure_osbits oversample;;
  count_8 ← pure (cv_attr Samples "COUNT_8");
  set__pressure_shiftbit (count_8 <? oversample);;
  o ← get_self;
  scale ← pure (tuple_index (_oversample_scalefactor o) oversample);
  update_self (set_pressure_scale scale).

(** [temperature_configuration], lines 283-289. *)
Definition temperature_configuration (rate oversample : Z) : M Dev unit :=
  set__temp_ratebits rate;;
  set__temp_osbits oversample;;
  o ← get_self;
  scale ← pure (tuple_index (_oversample_scalefactor o) oversample);
  update_self (set_temp_scale scale);;
  count_8 ← pure (cv_attr Samples "COUNT_8");
  set__temp_shiftbit (count_8 <? oversample);;
  src ← _calib_coeff_temp_src_bit;
  set__temp_measurement_src_bit src.

(** [sensor_ready], [temperature_ready], [pressure_ready], lines 248-261. *)
Definition sensor_ready : M Dev bool := _sensor_ready.
Definition temperature_ready : M Dev bool := _temp_ready.
Definition pressure_ready : M Dev bool := _pressure_ready.

(** [initialize], lines 198-212. *)
Definition initialize (cls : pyclass) (fuel : nat) : M Dev unit :=
  reset fuel;;
  sleep;;
  _read_calibration cls fuel;;
  rate ← pure (cv_attr Rate "RATE_64_HZ");
  count ← pure (cv_attr Samples "COUNT_64");
  pressure_configuration rate count;;
  rate ← pure (cv_attr Rate "RATE_64_HZ");
  count ← pure (cv_attr Samples "COUNT_64");
  temperature_configuration rate count;;
  m ← pure (cv_attr Mode "CONT_PRESTEMP");
  set_mode m;;
  poll_until fuel
    (t ← _temp_ready;
     if negb t then ret false else _pressure_ready)
    sleep.

Context `{Probe Dev}.

(** [I2CDevice.__probe_for_device] of [adafruit_bus_device]: an empty write
    to the address and, when that ends in [OSError], a one-byte read.  The
    result is whether a device answered, the bus afterwards and the
    transfers that were made. *)
Definition probe_for_device (d : Dev) : bool * Dev * list event :=
  let (ack, d1) := writeto_empty d in
  if ack then (true, d1, [I2CProbeWrite])
  else
    let (ack', d2) := readfrom_one d1 in
    (ack', d2, [I2CProbeWrite; I2CProbeRead]).

(** [i2c_device.I2CDevice(i2c_bus, address)], with the default [probe=True]:
    [ValueError] when nothing answers at the address. *)
Definition I2CDevice : M Dev unit :=
  fun s =>
    let '(found, d, probes) := probe_for_device (device s) in
    (if found then Ok tt else Raise ValueError,
     mkSession (self s) d (bus_log s ++ probes)).

(** [__init__], lines 176-196.  The handle that line 177 stores in
    [self.i2c_device] is the [device] of the session. *)
Definition __init__ (cls : pyclass) (fuel : nat) : M Dev unit :=
  I2CDevice;;
  id ← _device_id;
  if negb (id =? _DPS310_DEVICE_ID) then raise RuntimeError
  else
    update_self (fun _ => fresh_attributes);;
    initialize cls fuel.

(** [DPS310(i2c_bus)]: a new object, a log with nothing on it yet. *)
Definition construct (cls : pyclass) (fuel : nat) (i2c_bus : Dev)
    : outcome unit * session Dev :=
  __init__ cls fuel (mkSession unassigned i2c_bus []).

Section Measurement.
Context {F : Type} `{FloatOps F}.
Local Open Scope py_scope.

(** The [pressure] property, lines 220-239. *)
Definition pressure (cls : pyclass) : M Dev (pyval F) :=
  temp_reading ← _raw_temperature;
  raw_temperature ← self_twos_complement cls temp_reading 24;
  pressure_reading ← _raw_pressure;
  raw_pressure ← self_twos_complement cls pressure_reading 24;
  o ← get_self;
  _scaled_rawtemp ← pure (Ok (PyInt raw_temperature) /! attr (_temp_scale o));
  _temperature ← pure (Ok _scaled_rawtemp *! attr (_c1 o)
                       +! attr (_c0 o) /! Ok (PyFloat (of_int 2)));
  p_red ← pure (Ok (PyInt raw_pressure) /! attr (_pressure_scale o));
  pres_calc ← pure
    (attr (_c00 o)
     +! Ok p_red *! (attr (_c10 o)
                     +! Ok p_red *! (attr (_c20 o) +! Ok p_red *! attr (_c30 o)))
     +! Ok _scaled_rawtemp
        *! (attr (_c01 o) +! Ok p_red *! (attr (_c11 o) +! Ok p_red *! attr (_c21 o))));
  final_pressure ← pure (Ok pres_calc /! Ok (PyInt 100));
  ret final_pressure.

(** The [temperature] property, lines 241-246. *)
Definition temperature : M Dev (pyval F) :=
  raw ← _raw_temperature;
  o ← get_self;
  _scaled_rawtemp ← pure (Ok (PyInt raw) /! attr (_temp_scale o));
  _temperature ← pure (Ok _scaled_rawtemp *! attr (_c1 o)
                       +! attr (_c0 o) /! Ok (PyFloat (of_int 2)));
  ret _temperature.
End Measurement.
End Driver.

(** ** A register file as the device *)

(** The simplest sensor: every register keeps the byte last written to it,
    registers never written read as [0]. *)
#[export] Instance regfile_Bus : Bus (gmap Z Z) := {|
  read_reg := fun (d : gmap Z Z) reg => (default 0 (d !! reg), d);
  write_reg := fun (d : gmap Z Z) reg b => <[reg := b]> d
|}.

(** A bus on which the empty write is acknowledged or not, and the one-byte
    read is acknowledged or not, whatever the registers hold. *)
Definition answering (empty_write one_byte_read : bool) : Probe (gmap Z Z) := {|
  writeto_empty := fun d => (empty_write, d);
  readfrom_one := fun d => (one_byte_read, d)
|}.

(** The register file answers at its address. *)
#[export] Instance regfile_Probe : Probe (gmap Z Z) := answering true true.

(** ** Vocabulary of the statements *)

(** The values of the six members of [Mode] and of the eight members of
    [Rate] and of [Samples]. *)
Definition mode_values : list Z := [0; 1; 2; 5; 6; 7].
Definition level_values : list Z := [0; 1; 2; 3; 4; 5; 6; 7].

(** A call is rejected before any register write when it raises and none of
    the transactions it added to the log is a write. *)
Definition rejected_before_any_write {Dev A : Type} (m : M Dev A) (s : session Dev)
    : Prop :=
  exists (e : exn) (s' : session Dev),
    m s = (Raise e, s') /\ List.filter is_write (new_events s s') = [].

(** A call does no bus I/O when it adds nothing to the log. *)
Definition no_bus_io {Dev A : Type} (m : M Dev A) (s : session Dev) : Prop :=
  new_events s (m s).2 = [].

(** A session on a register file right after lines 181-195 have run: the
    tuple is in place, calibration and both scale factors are still [None]. *)
Definition fresh_session (d : gmap Z Z) : session (gmap Z Z) :=
  mkSession fresh_attributes d [].

(** Calibration is loaded once all nine coefficients hold a number. *)
Definition calibration_loaded (o : DPS310) : bool :=
  match _c0 o, _c1 o, _c00 o, _c10 o, _c01 o, _c11 o, _c20 o, _c21 o, _c30 o with
  | Some _, Some _, Some _, Some _, Some _, Some _, Some _, Some _, Some _ => true
  | _, _, _, _, _, _, _, _, _ => false
  end.

(** The 24-bit count that [ROBits(24, reg, 0, 3, lsb_first=False)] delivers
    from the three registers starting at [reg]. *)
Definition raw_count {Dev : Type} `{Bus Dev} (d : Dev) (reg : Z) : Z :=
  Z.shiftr (Z.land (combine false (read_burst d reg 3).1) (bit_mask 24 0)) 0.

(** What [_twos_complement(val, bits)] returns for a width of at least 1. *)
Definition sign_extended (val bits : Z) : Z :=
  if negb (Z.land val (Z.shiftl 1 (bits - 1)) =? 0) then val - Z.shiftl 1 bits else val.

(** A calibrated and configured object: both channels at [COUNT_64], and
    coefficients of the size the sensor ships with. *)
Definition calibrated_example : DPS310 :=
  mkDPS310 (Some 1040384) (Some 1040384) (Some 200) (Some (-250)) (Some 80000)
    (Some (-50000)) (Some (-2000)) (Some 1200) (Some (-9000)) (Some 100)
    (Some (-1500)) oversample_scalefactor.

(** A register file whose pressure registers hold [12 34 56] and whose
    temperature registers hold [FF FF FF], the 24-bit pattern of -1. *)
Definition cold_device : gmap Z Z :=
  list_to_map [(0x00, 0x12); (0x01, 0x34); (0x02, 0x56);
               (0x03, 0xFF); (0x04, 0xFF); (0x05, 0xFF)].

Definition cold_session : session (gmap Z Z) :=
  mkSession calibrated_example cold_device [].

Section Formulas.
Context {F : Type} `{FloatOps F}.
Local Open Scope py_scope.

(** The arithmetic of lines 228-238 on its own, from the two counts that
    enter line 228 and line 232. *)
Definition pressure_arithmetic (o : DPS310) (raw_temperature raw_pressure : Z)
    : outcome (pyval F) :=
  _scaled_rawtemp ← Ok (PyInt raw_temperature) /! attr (_temp_scale o);
  _temperature ← Ok _scaled_rawtemp *! attr (_c1 o)
                 +! attr (_c0 o) /! Ok (PyFloat (of_int 2));
  p_red ← Ok (PyInt raw_pressure) /! attr (_pressure_scale o);
  pres_calc ←
    attr (_c00 o)
    +! Ok p_red *! (attr (_c10 o)
                    +! Ok p_red *! (attr (_c20 o) +! Ok p_red *! attr (_c30 o)))
    +! Ok _scaled_rawtemp
       *! (attr (_c01 o) +! Ok p_red *! (attr (_c11 o) +! Ok p_red *! attr (_c21 o)));
  Ok pres_calc /! Ok (PyInt 100).

(** The arithmetic of lines 244-245 on its own, from the count that enters
    line 244. *)
Definition temperature_arithmetic (o : DPS310) (raw : Z) : outcome (pyval F) :=
  _scaled_rawtemp ← Ok (PyInt raw) /! attr (_temp_scale o);
  Ok _scaled_rawtemp *! attr (_c1 o) +! attr (_c0 o) /! Ok (PyFloat (of_int 2)).

(** The compensated pressure as the specification writes it:
    [(c00 + p*(c10 + p*(c20 + p*c30)) + t*(c01 + p*(c11 + p*c21))) / 100]
    with [p] and [t] the signed counts over the scale factors. *)
Definition spec_read_pressure (c00 c10 c20 c30 c01 c11 c21 : Z)
    (raw_pressure pressure_scale raw_temperature temp_scale : Z) : F :=
  let p := int_truediv raw_pressure pressure_scale in
  let t := int_truediv raw_temperature temp_scale in
  fdiv
    (fadd
       (fadd (of_int c00)
          (fmul p (fadd (of_int c10) (fmul p (fadd (of_int c20) (fmul p (of_int c30)))))))
       (fmul t (fadd (of_int c01) (fmul p (fadd (of_int c11) (fmul p (of_int c21)))))))
    (of_int 100).

(** The compensated temperature as the specification writes it: the signed
    count over the scale factor, then [c1 * scaled + c0/2]. *)
Definition spec_read_temperature (c0 c1 : Z) (raw_temperature temp_scale : Z) : F :=
  let scaled := int_truediv raw_temperature temp_scale in
  fadd (fmul (of_int c1) scaled) (fdiv (of_int c0) (of_int 2)).
End Formulas.

(** Eighteen calibration bytes, as registers [0x10] to [0x21] may hold them. *)
Definition calibration_fixture : list Z :=
  [0x0C; 0x8E; 0xF2; 0x14; 0x8A; 0x4F; 0x35; 0xE1; 0xF8;
   0x3A; 0x04; 0xD2; 0xDC; 0x64; 0x00; 0x5A; 0xFA; 0x24].

(** A register file of a sensor that has finished its reset: the product ID,
    the four status bits, the calibration bytes, the temperature-source bit,
    and a sample in the data registers. *)
Definition ready_device : gmap Z Z :=
  list_to_map
    ([(_DPS310_PRODREVID, 0x10); (_DPS310_MEASCFG, 0xF0); (_DPS310_TMPCOEFSRCE, 0x80);
      (0x00, 0x12); (0x01, 0x34); (0x02, 0x56);
      (0x03, 0x65); (0x04, 0x43); (0x05, 0x21)]
     ++ zip (seqZ 0x10 18) calibration_fixture).

(** ** The read side of the read-write registers *)

Section DescriptorReads.
Context {Dev : Type} `{Bus Dev}.

(** [RWBits.__get__] and [RWBit.__get__] of the register definitions of
    lines 149-163, which the methods above only assign to. *)
Definition _pressure_ratebits : M Dev Z := Bits_get 3 _DPS310_PRSCFG 4 1 true.
Definition _pressure_osbits : M Dev Z := Bits_get 4 _DPS310_PRSCFG 0 1 true.
Definition _pressure_config : M Dev Z := Bits_get 8 _DPS310_PRSCFG 0 1 true.
Definition _temp_ratebits : M Dev Z := Bits_get 3 _DPS310_TMPCFG 4 1 true.
Definition _temp_osbits : M Dev Z := Bits_get 4 _DPS310_TMPCFG 0 1 true.
Definition _temp_measurement_src_bit : M Dev bool := Bit_get _DPS310_TMPCFG 7.
Definition _temp_config : M Dev Z := Bits_get 8 _DPS310_TMPCFG 0 1 true.
Definition _pressure_shiftbit : M Dev bool := Bit_get _DPS310_CFGREG 2.
Definition _temp_shiftbit : M Dev bool := Bit_get _DPS310_CFGREG 3.
End DescriptorReads.

(** The byte a register file holds at [reg]. *)
Definition reg_byte (d : gmap Z Z) (reg : Z) : Z := default 0 (d !! reg).

(** A byte as the bus delivers it. *)
Definition is_byte (b : Z) : Prop := 0 <= b < 256.

(** The byte [RWBits.__set__] writes back over [old], and the byte
    [RWBit.__set__] writes back. *)
Definition written_byte (old num_bits lowest_bit value : Z) : Z :=
  Z.land (Z.lor (Z.land old (Z.lnot (bit_mask num_bits lowest_bit)))
            (Z.shiftl value lowest_bit)) 0xFF.

Definition written_bit (old bit : Z) (value : bool) : Z :=
  if value then Z.lor old (Z.shiftl 1 (bit mod 8))
  else Z.land old (Z.lnot (Z.shiftl 1 (bit mod 8))).

Section WrittenBytes.
Context {Dev : Type} `{Bus Dev}.

(** The read-modify-write of [RWBits.__set__] and of [RWBit.__set__] on the
    device: the byte that goes out, and the device afterwards. *)
Definition field_write (d : Dev) (num_bits reg lowest_bit value : Z) : Z * Dev :=
  let (old, d1) := read_reg d reg in
  (written_byte old num_bits lowest_bit value,
   write_reg d1 reg (written_byte old num_bits lowest_bit value)).

Definition bit_write (d : Dev) (reg bit : Z) (value : bool) : Z * Dev :=
  let (old, d1) := read_reg d reg in
  (written_bit old bit value, write_reg d1 reg (written_bit old bit value)).
End WrittenBytes.

(** A channel is consistent when its oversample field holds one of the eight
    levels, its scale factor is the entry of the tuple for that level, and
    its shift bit is set exactly for the levels above [COUNT_8]. *)
Definition consistent (osbits : outcome Z) (shiftbit : outcome bool)
    (scale : option Z) : bool :=
  match osbits, shiftbit with
  | Ok i, Ok b =>
      bool_decide (In i level_values) && Bool.eqb b (3 <? i) &&
      bool_decide (scale = oversample_scalefactor !! Z.to_nat i)
  | _, _ => false
  end.

Definition pressure_consistent (s : session (gmap Z Z)) : bool :=
  consistent (_pressure_osbits s).1 (_pressure_shiftbit s).1 (_pressure_scale (self s)).

Definition temperature_consistent (s : session (gmap Z Z)) : bool :=
  consistent (_temp_osbits s).1 (_temp_shiftbit s).1 (_temp_scale (self s)).

(** A session in which both channels have been configured at [COUNT_1]. *)
Definition consistent_session : session (gmap Z Z) :=
  (temperature_configuration 0 0
     (pressure_configuration 0 0 (fresh_session ready_device)).2).2.

(** [s'] continues [s] when the log of [s'] extends the log of [s] and the
    object still holds the same tuple of scale factors. *)
Definition continues {Dev : Type} (s s' : session Dev) : Prop :=
  (exists es : list event, bus_log s' = bus_log s ++ es) /\
  _oversample_scalefactor (self s') = _oversample_scalefactor (self s).

(** A method keeps the session when every run of it continues the state it
    started in. *)
Definition keeps {Dev A : Type} (m : M Dev A) : Prop :=
  forall s : session Dev, continues s (m s).2.

(** The names a value tuple can use with lines 80-84 reading as written:
    [setattr] with one of the four names the class [CV] binds itself would
    rebind the dictionary or the method of that name, and the names with two
    leading underscores belong to Python. *)
Definition ordinary_name (name : string) : bool :=
  negb (existsb (String.eqb name) ["string"; "lsb"; "add_values"; "is_valid"]%string)
  && negb (String.prefix "__" name).

Definition ordinary_names (value_tuples : list value_tuple) : bool :=
  forallb (fun value_tuple : value_tuple =>
             let '(name, _, _, _) := value_tuple in ordinary_name name)
    value_tuples.

(** * Properties *)

(** ** Sign extension *)

Lemma land_pow2 (v n : Z) :
  0 <= n -> Z.land v (2 ^ n) = if Z.testbit v n then 2 ^ n else 0.
Proof.
  intros Hn. apply Z.bits_inj'. intros m Hm.
  rewrite Z.land_spec, Z.pow2_bits_eqb by lia.
  destruct (Z.eqb_spec n m) as [->|Hne].
  - destruct (Z.testbit v m) eqn:E; simpl.
    + now rewrite Z.pow2_bits_true.
    + now rewrite Z.bits_0.
  - rewrite andb_false_r.
    destruct (Z.testbit v n).
    + now rewrite Z.pow2_bits_false.
    + now rewrite Z.bits_0.
Qed.

Lemma high_bit_iff (v w : Z) :
  1 <= w -> 0 <= v < 2 ^ w -> Z.testbit v (w - 1) = (2 ^ (w - 1) <=? v).
Proof.
  intros Hw Hv.
  assert (Hp : 2 ^ w = 2 * 2 ^ (w - 1)).
  { rewrite <- Z.pow_succ_r by lia. f_equal. lia. }
  assert (Hpos : 0 < 2 ^ (w - 1)) by (apply Z.pow_pos_nonneg; lia).
  destruct (Z.leb_spec (2 ^ (w - 1)) v) as [Hge|Hlt].
  - apply Z.testbit_true; [lia|].
    replace (v / 2 ^ (w - 1)) with 1; [reflexivity|].
    apply Z.div_unique with (r := v - 2 ^ (w - 1)); lia.
  - apply Z.testbit_false; [lia|].
    now rewrite Z.div_small by lia.
Qed.

Lemma twos_complement_value (v w : Z) :
  1 <= w -> 0 <= v < 2 ^ w ->
  _twos_complement v w = Ok (if 2 ^ (w - 1) <=? v then v - 2 ^ w else v).
Proof.
  intros Hw Hv. unfold _twos_complement.
  destruct (Z.ltb_spec w 1) as [?|_]; [lia|].
  rewrite !Z.shiftl_1_l, land_pow2 by lia.
  rewrite high_bit_iff by lia.
  assert (Hpos : 0 < 2 ^ (w - 1)) by (apply Z.pow_pos_nonneg; lia).
  destruct (2 ^ (w - 1) <=? v); simpl.
  - destruct (Z.eqb_spec (2 ^ (w - 1)) 0); [lia|reflexivity].
  - reflexivity.
Qed.

Lemma pow2_half (w : Z) : 1 <= w -> 2 ^ w = 2 * 2 ^ (w - 1).
Proof. intros Hw. rewrite <- Z.pow_succ_r by lia. f_equal. lia. Qed.

Lemma device_widths_pos (w : Z) : In w device_widths -> 1 <= w.
Proof. unfold device_widths. simpl. intros [<-|[<-|[<-|[<-|[]]]]]; lia. Qed.

(** C4: on an unsigned [w]-bit value, for each width the device uses, the
    sign extension subtracts [2^w] exactly when bit [w-1] is set; its result
    lies in [-2^(w-1), 2^(w-1)-1], and it is the identity below [2^(w-1)]. *)
Theorem twos_complement_sign_extends (w v : Z) :
  In w device_widths -> 0 <= v < 2 ^ w ->
  exists r : Z,
    _twos_complement v w = Ok r /\
    r = (if Z.testbit v (w - 1) then v - 2 ^ w else v) /\
    - 2 ^ (w - 1) <= r <= 2 ^ (w - 1) - 1 /\
    (v < 2 ^ (w - 1) -> r = v).
Proof.
  intros Hin Hv. pose proof (device_widths_pos w Hin) as Hw.
  pose proof (pow2_half w Hw) as Hp.
  rewrite twos_complement_value, high_bit_iff by lia.
  eexists. split; [reflexivity|].
  destruct (Z.leb_spec (2 ^ (w - 1)) v); repeat split; lia.
Qed.

Lemma twos_complement_sign_extends_witness :
  exists r : Z,
    _twos_complement 0xFFF 12 = Ok r /\
    r = (if Z.testbit 0xFFF (12 - 1) then 0xFFF - 2 ^ 12 else 0xFFF) /\
    - 2 ^ (12 - 1) <= r <= 2 ^ (12 - 1) - 1 /\
    (0xFFF < 2 ^ (12 - 1) -> r = 0xFFF).
Proof.
  apply (twos_complement_sign_extends 12 0xFFF).
  - unfold device_widths. simpl. tauto.
  - lia.
Defined.

(** C5: for each width the device uses, the [w]-bit pattern of a signed
    value in [-2^(w-1), 2^(w-1)-1] sign-extends back to that value. *)
Theorem twos_complement_round_trip (w s : Z) :
  In w device_widths -> - 2 ^ (w - 1) <= s <= 2 ^ (w - 1) - 1 ->
  _twos_complement (encode_twos s w) w = Ok s.
Proof.
  intros Hin Hs. pose proof (device_widths_pos w Hin) as Hw.
  pose proof (pow2_half w Hw) as Hp.
  assert (Hpos : 0 < 2 ^ (w - 1)) by (apply Z.pow_pos_nonneg; lia).
  unfold encode_twos.
  rewrite twos_complement_value by (try apply Z.mod_pos_bound; lia).
  f_equal.
  destruct (Z.neg_nonneg_cases s) as [Hneg|Hnn].
  - assert (E : s mod 2 ^ w = s + 2 ^ w).
    { symmetry. apply Z.mod_unique with (q := -1); lia. }
    rewrite E. destruct (Z.leb_spec (2 ^ (w - 1)) (s + 2 ^ w)); lia.
  - rewrite Z.mod_small by lia.
    destruct (Z.leb_spec (2 ^ (w - 1)) s); lia.
Qed.

Lemma twos_complement_round_trip_witness :
  _twos_complement (encode_twos (-5) 16) 16 = Ok (-5).
Proof.
  apply (twos_complement_round_trip 16 (-5)).
  - unfold device_widths. simpl. tauto.
  - lia.
Defined.

(** ** Bit fields of a one-byte register *)

Lemma bit_mask_ones (k lo : Z) : 0 <= k -> bit_mask k lo = Z.shiftl (Z.ones k) lo.
Proof. intros Hk. unfold bit_mask. now rewrite Z.ones_equiv, Z.shiftl_1_l. Qed.

(** Reading a field back after [RWBits.__set__] gives the value written. *)
Lemma field_read_back (reg v k lo : Z) :
  0 <= lo -> 0 <= k -> lo + k <= 8 -> 0 <= v < 2 ^ k ->
  Z.shiftr
    (Z.land (Z.land (Z.lor (Z.land reg (Z.lnot (bit_mask k lo))) (Z.shiftl v lo)) 0xFF)
       (bit_mask k lo)) lo = v.
Proof.
  intros Hlo Hk Hfit Hv.
  rewrite bit_mask_ones by lia.
  rewrite <- (Z.mod_small v (2 ^ k)) by lia.
  rewrite <- Z.land_ones by lia.
  change 0xFF with (Z.ones 8).
  Z.bitblast.
Qed.

(** The bits of the byte outside the field are the ones read. *)
Lemma field_others_kept (reg v k lo i : Z) :
  0 <= lo -> 0 <= k -> lo + k <= 8 -> 0 <= v < 2 ^ k ->
  0 <= i < 8 -> ~ (lo <= i < lo + k) ->
  Z.testbit (Z.land (Z.lor (Z.land reg (Z.lnot (bit_mask k lo))) (Z.shiftl v lo)) 0xFF) i
  = Z.testbit reg i.
Proof.
  intros Hlo Hk Hfit Hv Hi Hout.
  rewrite bit_mask_ones by lia.
  rewrite <- (Z.mod_small v (2 ^ k)) by lia.
  rewrite <- Z.land_ones by lia.
  change 0xFF with (Z.ones 8).
  Z.bitblast_core.
Qed.

Lemma combine_single (lsb_first : bool) (b : Z) : combine lsb_first [b] = b.
Proof. unfold combine. destruct lsb_first; simpl; apply Z.lor_0_l. Qed.

(** ** The enumerations *)

Lemma Mode_is_valid (value : Z) :
  is_valid Mode value = bool_decide (In value mode_values).
Proof.
  unfold is_valid, Mode, add_values, mode_values. simpl.
  rewrite !lookup_insert, lookup_empty.
  repeat case_decide; subst; simpl;
    repeat match goal with
           | |- context [bool_decide ?P] => destruct (bool_decide_reflect P)
           end;
    try reflexivity;
    try (exfalso; tauto);
    try match goal with H : is_Some None |- _ => destruct H; discriminate end;
    try match goal with H : ~ is_Some (Some _) |- _ => exfalso; apply H; eauto end.
Qed.

(** ** Running the monad *)

Ltac run :=
  repeat (progress (unfold mbind, mret, M_bind, M_ret, outcome_bind, outcome_ret,
                      bind, ret, raise, pure, get_self, update_self, obind;
                    cbn beta iota zeta)).

Section ModeSetter.
Context {Dev : Type} `{Bus Dev}.

Lemma RWBits_set_run (num_bits reg lowest_bit value : Z) (s : session Dev) :
  RWBits_set num_bits reg lowest_bit value s =
  (Ok tt,
   mkSession (self s)
     (write_reg (read_reg (device s) reg).2 reg
        (Z.land (Z.lor (Z.land (read_reg (device s) reg).1
                          (Z.lnot (bit_mask num_bits lowest_bit)))
                   (Z.shiftl value lowest_bit)) 0xFF))
     (bus_log s ++
      [I2CWriteThenRead reg 1;
       I2CWrite reg [Z.land (Z.lor (Z.land (read_reg (device s) reg).1
                                   (Z.lnot (bit_mask num_bits lowest_bit)))
                            (Z.shiftl value lowest_bit)) 0xFF]])).
Proof.
  unfold RWBits_set, write_then_readinto, i2c_write. run. simpl.
  destruct (read_reg (device s) reg) as [old d]. simpl.
  rewrite combine_single, <- app_assoc. reflexivity.
Qed.

(** C7: the mode setter accepts the six values of [Mode] and nothing
    else.  A valid value is written into bits 0-2 of the measurement
    configuration register, the other bits of the byte as they were read;
    any other value raises [AttributeError] and leaves the session, bus log
    included, as it was. *)
Theorem set_mode_accepts_exactly_the_modes (value : Z) (s : session Dev) :
  (In value mode_values ->
   exists b : Z,
     set_mode value s =
     (Ok tt,
      mkSession (self s)
        (write_reg (read_reg (device s) _DPS310_MEASCFG).2 _DPS310_MEASCFG b)
        (bus_log s ++
         [I2CWriteThenRead _DPS310_MEASCFG 1; I2CWrite _DPS310_MEASCFG [b]])) /\
     Z.land b 7 = value /\
     forall i : Z, 3 <= i < 8 ->
       Z.testbit b i = Z.testbit (read_reg (device s) _DPS310_MEASCFG).1 i) /\
  (~ In value mode_values -> set_mode value s = (Raise AttributeError, s)).
Proof.
  unfold set_mode. rewrite Mode_is_valid. split; intros Hv.
  - rewrite bool_decide_eq_true_2 by assumption. simpl.
    unfold set__mode_bits. rewrite RWBits_set_run.
    eexists. split; [reflexivity|].
    assert (Hr : 0 <= value < 2 ^ 3).
    { unfold mode_values in Hv. simpl in Hv. lia. }
    split.
    + pose proof (field_read_back (read_reg (device s) _DPS310_MEASCFG).1
                    value 3 0) as E.
      rewrite Z.shiftr_0_r in E. apply E; lia.
    + intros i Hi. apply field_others_kept; lia.
  - rewrite bool_decide_eq_false_2 by assumption. reflexivity.
Qed.
End ModeSetter.

(** ** Channel configuration *)

Lemma Samples_COUNT_8 : cv_attr Samples "COUNT_8" = Ok 3.
Proof. vm_compute. reflexivity. Qed.

Lemma tuple_index_level (i : Z) :
  In i level_values ->
  tuple_index oversample_scalefactor i = Ok (nth (Z.to_nat i) oversample_scalefactor 0)
  /\ oversample_scalefactor !! Z.to_nat i = Some (nth (Z.to_nat i) oversample_scalefactor 0).
Proof.
  unfold level_values. simpl.
  intros [<-|[<-|[<-|[<-|[<-|[<-|[<-|[<-|[]]]]]]]]]; split; reflexivity.
Qed.

Lemma tuple_index_out_of_range (t : list Z) (i : Z) :
  i < - Z.of_nat (length t) \/ Z.of_nat (length t) <= i ->
  tuple_index t i = Raise IndexError.
Proof.
  intros Hi. unfold tuple_index.
  destruct (Z.ltb_spec i 0).
  - destruct (Z.ltb_spec (i + Z.of_nat (length t)) 0); [reflexivity|lia].
  - destruct (Z.ltb_spec i 0); [lia|].
    destruct (Z.leb_spec (Z.of_nat (length t)) i); [reflexivity|lia].
Qed.

Section Configuration.
Context {Dev : Type} `{Bus Dev}.

Lemma bind_run {A B : Type} (m : M Dev A) (k : A -> M Dev B) (s : session Dev) :
  (m ≫= k) s =
  match m s with
  | (Ok a, s') => k a s'
  | (Raise e, s') => (Raise e, s')
  | (OutOfFuel, s') => (OutOfFuel, s')
  end.
Proof. reflexivity. Qed.

Lemma RWBit_set_run (reg bit : Z) (value : bool) (s : session Dev) :
  RWBit_set reg bit value s =
  (Ok tt,
   mkSession (self s)
     (write_reg (read_reg (device s) reg).2 reg
        (if value then Z.lor (read_reg (device s) reg).1 (Z.shiftl 1 (bit mod 8))
         else Z.land (read_reg (device s) reg).1 (Z.lnot (Z.shiftl 1 (bit mod 8)))))
     (bus_log s ++
      [I2CWriteThenRead reg 1;
       I2CWrite reg
         [if value then Z.lor (read_reg (device s) reg).1 (Z.shiftl 1 (bit mod 8))
          else Z.land (read_reg (device s) reg).1 (Z.lnot (Z.shiftl 1 (bit mod 8)))]])).
Proof.
  unfold RWBit_set, write_then_readinto, i2c_write. run. simpl.
  destruct (read_reg (device s) reg) as [old d]. simpl.
  rewrite <- app_assoc. reflexivity.
Qed.

Lemma Bit_get_run (reg bit : Z) (s : session Dev) :
  Bit_get reg bit s =
  (Ok (negb (Z.land (read_reg (device s) reg).1 (Z.shiftl 1 (bit mod 8)) =? 0)),
   mkSession (self s) (read_reg (device s) reg).2
     (bus_log s ++ [I2CWriteThenRead reg 1])).
Proof.
  unfold Bit_get, write_then_readinto. run. simpl.
  destruct (read_reg (device s) reg) as [old d]. reflexivity.
Qed.

Lemma bit_written (old : Z) (bit : Z) (value : bool) :
  0 <= bit ->
  Z.testbit (if value then Z.lor old (Z.shiftl 1 bit)
             else Z.land old (Z.lnot (Z.shiftl 1 bit))) bit = value.
Proof.
  intros Hb. rewrite Z.shiftl_1_l.
  destruct value.
  - rewrite Z.lor_spec, Z.pow2_bits_true by lia. apply orb_true_r.
  - rewrite Z.land_spec, Z.lnot_spec, Z.pow2_bits_true by lia. apply andb_false_r.
Qed.

Lemma new_events_app (s s' : session Dev) (es : list event) :
  bus_log s' = bus_log s ++ es -> new_events s s' = es.
Proof. intros E. unfold new_events. rewrite E. apply drop_app_length. Qed.

End Configuration.

Lemma set_mode_accepts_exactly_the_modes_witness :
  (exists b : Z,
     set_mode 7 (fresh_session ∅) =
     (Ok tt,
      mkSession (self (fresh_session ∅))
        (write_reg (read_reg (device (fresh_session ∅)) _DPS310_MEASCFG).2
           _DPS310_MEASCFG b)
        (bus_log (fresh_session ∅) ++
         [I2CWriteThenRead _DPS310_MEASCFG 1; I2CWrite _DPS310_MEASCFG [b]])) /\
     Z.land b 7 = 7 /\
     forall i : Z, 3 <= i < 8 ->
       Z.testbit b i =
       Z.testbit (read_reg (device (fresh_session ∅)) _DPS310_MEASCFG).1 i) /\
  set_mode 3 (fresh_session ∅) = (Raise AttributeError, fresh_session ∅).
Proof.
  split.
  - apply (proj1 (set_mode_accepts_exactly_the_modes 7 (fresh_session ∅))).
    unfold mode_values. simpl. tauto.
  - apply (proj2 (set_mode_accepts_exactly_the_modes 3 (fresh_session ∅))).
    unfold mode_values. simpl. lia.
Defined.

(** ** Configuration arguments outside the eight levels *)

(** An oversample value of 8 reaches the sensor before the tuple lookup
    fails, and a rate of 8 is not refused at all. *)
Lemma configuration_writes_before_it_fails :
  ~ rejected_before_any_write (pressure_configuration 6 8) (fresh_session ∅) /\
  ~ rejected_before_any_write (temperature_configuration 6 8) (fresh_session ∅) /\
  ~ rejected_before_any_write (pressure_configuration 8 6) (fresh_session ∅).
Proof.
  split; [|split]; intros (e & s' & E & W).
  - assert (X : List.filter is_write
                  (new_events (fresh_session ∅)
                     (pressure_configuration 6 8 (fresh_session ∅)).2) =
                [I2CWrite _DPS310_PRSCFG [96]; I2CWrite _DPS310_PRSCFG [104];
                 I2CWrite _DPS310_CFGREG [4]])
      by (vm_compute; reflexivity).
    rewrite E in X. simpl in X. rewrite W in X. discriminate.
  - assert (X : List.filter is_write
                  (new_events (fresh_session ∅)
                     (temperature_configuration 6 8 (fresh_session ∅)).2) =
                [I2CWrite _DPS310_TMPCFG [96]; I2CWrite _DPS310_TMPCFG [104]])
      by (vm_compute; reflexivity).
    rewrite E in X. simpl in X. rewrite W in X. discriminate.
  - assert (X : (pressure_configuration 8 6 (fresh_session ∅)).1 = Ok tt)
      by (vm_compute; reflexivity).
    rewrite E in X. discriminate.
Qed.

Section ConfigurationBeyondTheTable.
Context {Dev : Type} `{Bus Dev}.

(** C8, as the code has it: nothing validates [rate] or [oversample].  An
    oversample value that is no index of the scale-factor tuple (8 or
    more, or below -8) makes either configuration call raise [IndexError]
    at the tuple lookup, with the attributes of the object, scale factors
    included, as they were.  By then the pressure call has written the rate
    field, the oversample field and the pressure shift bit, which it sets
    for 8 or more and clears below -8; the temperature call has written
    the rate field and the oversample field and has made no transaction on
    the register of the shift bits. *)
Theorem configuration_beyond_the_table (rate oversample : Z) (s : session Dev) :
  _oversample_scalefactor (self s) = oversample_scalefactor ->
  8 <= oversample \/ oversample < -8 ->
  (let '(b_rate, d1) := field_write (device s) 3 _DPS310_PRSCFG 4 rate in
   let '(b_os, d2) := field_write d1 4 _DPS310_PRSCFG 0 oversample in
   let '(b_shift, d3) := bit_write d2 _DPS310_CFGREG 2 (3 <? oversample) in
   pressure_configuration rate oversample s =
   (Raise IndexError,
    mkSession (self s) d3
      (bus_log s ++
       [I2CWriteThenRead _DPS310_PRSCFG 1; I2CWrite _DPS310_PRSCFG [b_rate];
        I2CWriteThenRead _DPS310_PRSCFG 1; I2CWrite _DPS310_PRSCFG [b_os];
        I2CWriteThenRead _DPS310_CFGREG 1; I2CWrite _DPS310_CFGREG [b_shift]]))) /\
  (let '(b_rate, d1) := field_write (device s) 3 _DPS310_TMPCFG 4 rate in
   let '(b_os, d2) := field_write d1 4 _DPS310_TMPCFG 0 oversample in
   temperature_configuration rate oversample s =
   (Raise IndexError,
    mkSession (self s) d2
      (bus_log s ++
       [I2CWriteThenRead _DPS310_TMPCFG 1; I2CWrite _DPS310_TMPCFG [b_rate];
        I2CWriteThenRead _DPS310_TMPCFG 1; I2CWrite _DPS310_TMPCFG [b_os]]))).
Proof.
  intros Htab Hos.
  assert (Hidx : tuple_index oversample_scalefactor oversample = Raise IndexError).
  { apply tuple_index_out_of_range. simpl. lia. }
  unfold field_write, bit_write, written_byte, written_bit. split.
  - unfold pressure_configuration, set__pressure_ratebits, set__pressure_osbits,
      set__pressure_shiftbit.
    rewrite bind_run, RWBits_set_run, bind_run, RWBits_set_run.
    rewrite bind_run. unfold pure at 1. rewrite Samples_COUNT_8.
    rewrite bind_run, RWBit_set_run.
    run. cbn [self device bus_log]. rewrite Htab, Hidx.
    repeat match goal with
           | |- context [read_reg ?d ?r] => destruct (read_reg d r); cbn [fst snd]
           end.
    rewrite <- !app_assoc. reflexivity.
  - unfold temperature_configuration, set__temp_ratebits, set__temp_osbits.
    rewrite bind_run, RWBits_set_run, bind_run, RWBits_set_run.
    rewrite bind_run. unfold get_self at 1. cbn [self device bus_log].
    rewrite bind_run. unfold pure at 1. rewrite Htab, Hidx.
    repeat match goal with
           | |- context [read_reg ?d ?r] => destruct (read_reg d r); cbn [fst snd]
           end.
    rewrite <- !app_assoc. reflexivity.
Qed.
End ConfigurationBeyondTheTable.

Lemma configuration_beyond_the_table_witness :
  (let '(b_rate, d1) :=
     field_write (device (fresh_session ready_device)) 3 _DPS310_PRSCFG 4 6 in
   let '(b_os, d2) := field_write d1 4 _DPS310_PRSCFG 0 8 in
   let '(b_shift, d3) := bit_write d2 _DPS310_CFGREG 2 (3 <? 8) in
   pressure_configuration 6 8 (fresh_session ready_device) =
   (Raise IndexError,
    mkSession (self (fresh_session ready_device)) d3
      (bus_log (fresh_session ready_device) ++
       [I2CWriteThenRead _DPS310_PRSCFG 1; I2CWrite _DPS310_PRSCFG [b_rate];
        I2CWriteThenRead _DPS310_PRSCFG 1; I2CWrite _DPS310_PRSCFG [b_os];
        I2CWriteThenRead _DPS310_CFGREG 1; I2CWrite _DPS310_CFGREG [b_shift]]))) /\
  (let '(b_rate, d1) :=
     field_write (device (fresh_session ready_device)) 3 _DPS310_TMPCFG 4 6 in
   let '(b_os, d2) := field_write d1 4 _DPS310_TMPCFG 0 8 in
   temperature_configuration 6 8 (fresh_session ready_device) =
   (Raise IndexError,
    mkSession (self (fresh_session ready_device)) d2
      (bus_log (fresh_session ready_device) ++
       [I2CWriteThenRead _DPS310_TMPCFG 1; I2CWrite _DPS310_TMPCFG [b_rate];
        I2CWriteThenRead _DPS310_TMPCFG 1; I2CWrite _DPS310_TMPCFG [b_os]]))).
Proof.
  apply (configuration_beyond_the_table 6 8 (fresh_session ready_device)).
  - reflexivity.
  - lia.
Defined.

(** ** Construction *)

Section Construction.
Context {Dev : Type} `{Bus Dev} `{Probe Dev}.

Lemma UnaryStruct_get_run (reg : Z) (s : session Dev) :
  UnaryStruct_get reg s =
  (Ok (read_reg (device s) reg).1,
   mkSession (self s) (read_reg (device s) reg).2
     (bus_log s ++ [I2CWriteThenRead reg 1])).
Proof.
  unfold UnaryStruct_get, write_then_readinto. run. simpl.
  destruct (read_reg (device s) reg) as [b d]. reflexivity.
Qed.

Lemma I2CDevice_run (s : session Dev) :
  I2CDevice s =
  (if (probe_for_device (device s)).1.1 then Ok tt else Raise ValueError,
   mkSession (self s) (probe_for_device (device s)).1.2
     (bus_log s ++ (probe_for_device (device s)).2)).
Proof.
  unfold I2CDevice.
  destruct (probe_for_device (device s)) as [[found d] probes]. reflexivity.
Qed.

Lemma probe_transfers (d : Dev) :
  (probe_for_device d).2 = [I2CProbeWrite] \/
  (probe_for_device d).2 = [I2CProbeWrite; I2CProbeRead].
Proof.
  unfold probe_for_device.
  destruct (writeto_empty d) as [[|] d1]; [left; reflexivity|].
  destruct (readfrom_one d1) as [ack d2]. right. reflexivity.
Qed.

(** C10, as the code has it: line 177 comes first, and the constructor of
    [I2CDevice] probes the address.  When the probe is answered and the
    product ID register does not read [0x10], construction raises
    [RuntimeError]; the log holds the probe, which is an empty write or an
    empty write and a one-byte read, and then the read of the ID register,
    and nothing else; none of the attributes of lines 181-195 has been
    assigned. *)
Theorem construction_fails_on_wrong_identity (cls : pyclass) (fuel : nat)
    (d d1 : Dev) (probes : list event) :
  probe_for_device d = (true, d1, probes) ->
  (read_reg d1 _DPS310_PRODREVID).1 <> _DPS310_DEVICE_ID ->
  construct cls fuel d =
  (Raise RuntimeError,
   mkSession unassigned (read_reg d1 _DPS310_PRODREVID).2
     (probes ++ [I2CWriteThenRead _DPS310_PRODREVID 1])) /\
  (probes = [I2CProbeWrite] \/ probes = [I2CProbeWrite; I2CProbeRead]).
Proof.
  intros Hprobe Hid. split.
  - unfold construct, __init__, _device_id.
    rewrite bind_run, I2CDevice_run. cbn [self device bus_log].
    rewrite Hprobe. cbn [fst snd app].
    rewrite bind_run, UnaryStruct_get_run. cbn [self device bus_log].
    destruct (Z.eqb_spec (read_reg d1 _DPS310_PRODREVID).1 _DPS310_DEVICE_ID) as [E|_].
    + contradiction.
    + reflexivity.
  - pose proof (probe_transfers d) as Hp. rewrite Hprobe in Hp. exact Hp.
Qed.
End Construction.

Lemma construction_fails_on_wrong_identity_witness :
  construct DPS310_class 5 (∅ : gmap Z Z) =
  (Raise RuntimeError,
   mkSession unassigned (read_reg (∅ : gmap Z Z) _DPS310_PRODREVID).2
     ([I2CProbeWrite] ++ [I2CWriteThenRead _DPS310_PRODREVID 1])) /\
  ([I2CProbeWrite] = [I2CProbeWrite] \/ [I2CProbeWrite] = [I2CProbeWrite; I2CProbeRead]).
Proof.
  apply (construction_fails_on_wrong_identity DPS310_class 5
           (∅ : gmap Z Z) (∅ : gmap Z Z) [I2CProbeWrite]).
  - reflexivity.
  - vm_compute. discriminate.
Defined.

(** The identity read is not the only transaction of a construction that
    fails on the ID: the probe of line 177 is on the bus before it. *)
Lemma construction_probes_before_the_identity_read :
  (construct DPS310_class 5 (∅ : gmap Z Z)).1 = Raise RuntimeError /\
  bus_log (construct DPS310_class 5 (∅ : gmap Z Z)).2 =
    [I2CProbeWrite; I2CWriteThenRead _DPS310_PRODREVID 1] /\
  bus_log (construct DPS310_class 5 (∅ : gmap Z Z)).2 <>
    [I2CWriteThenRead _DPS310_PRODREVID 1].
Proof.
  split; [vm_compute; reflexivity|].
  split; [vm_compute; reflexivity|].
  vm_compute. discriminate.
Qed.

(** Where nothing answers the probe, construction stops with [ValueError]
    before the ID register is read; where only the one-byte read is
    answered, it goes on to the ID register. *)
Example construct_without_a_sensor :
  @construct _ _ (answering false false) DPS310_class 5 ready_device =
  (Raise ValueError,
   mkSession unassigned ready_device [I2CProbeWrite; I2CProbeRead]) /\
  take 4 (bus_log (@construct _ _ (answering false true) DPS310_class 5 ready_device).2) =
  [I2CProbeWrite; I2CProbeRead; I2CWriteThenRead _DPS310_PRODREVID 1;
   I2CWrite _DPS310_RESET [0x89]].
Proof. split; vm_compute; reflexivity. Qed.


(** ** The calls of [self.twos_complement] *)

(** The class binds [_twos_complement]; no name [twos_complement] is bound
    on the class or on the instance. *)
Lemma twos_complement_is_not_bound :
  static_method DPS310_class "twos_complement" = Raise AttributeError.
Proof. vm_compute. reflexivity. Qed.

Lemma underscore_twos_complement_is_bound :
  static_method DPS310_class "_twos_complement" = Ok _twos_complement.
Proof. vm_compute. reflexivity. Qed.

Lemma twos_complement_bound_in_subclass :
  static_method bound_class "twos_complement" = Ok _twos_complement.
Proof. vm_compute. reflexivity. Qed.

Section UnboundCalls.
Context {Dev : Type} `{Bus Dev}.

Lemma Bits_get_run (num_bits reg lowest_bit : Z) (register_width : nat)
    (lsb_first : bool) (s : session Dev) :
  Bits_get num_bits reg lowest_bit register_width lsb_first s =
  (Ok (Z.shiftr
         (Z.land (combine lsb_first (read_burst (device s) reg register_width).1)
            (bit_mask num_bits lowest_bit)) lowest_bit),
   mkSession (self s) (read_burst (device s) reg register_width).2
     (bus_log s ++ [I2CWriteThenRead reg register_width])).
Proof.
  unfold Bits_get, write_then_readinto. run.
  destruct (read_burst (device s) reg register_width) as [data d]. reflexivity.
Qed.

Lemma self_twos_complement_unbound (val bits : Z) (s : session Dev) :
  self_twos_complement DPS310_class val bits s = (Raise AttributeError, s).
Proof.
  unfold self_twos_complement. rewrite bind_run. unfold pure at 1.
  rewrite twos_complement_is_not_bound. reflexivity.
Qed.

(** C3, what the code does: the decode assigns the unsigned 12-bit field to
    [_c0], then raises [AttributeError] at the first call of
    [self.twos_complement]; none of the nine signed coefficients is
    produced. *)
Theorem decode_calibration_raises (b0 b1 : Z) (rest : list (option Z))
    (s : session Dev) :
  decode_calibration DPS310_class (Some b0 :: Some b1 :: rest) s =
  (Raise AttributeError,
   mkSession
     (set_c0 (Z.lor (Z.shiftl b0 4) (Z.land (Z.shiftr b1 4) 0x0F)) (self s))
     (device s) (bus_log s)).
Proof.
  unfold decode_calibration.
  rewrite bind_run. unfold pure at 1. cbn [coeff_at lookup list_lookup].
  run. unfold static_method. simpl. reflexivity.
Qed.

(** Whatever the bytes and however long the sensor takes, calibration does
    not complete. *)
Lemma read_calibration_never_completes (fuel : nat) (s : session Dev) :
  (_read_calibration DPS310_class fuel s).1 <> Ok tt.
Proof.
  unfold _read_calibration. rewrite bind_run.
  destruct (poll_until fuel _coefficients_ready sleep s) as [[[]|e|] s1];
    try discriminate.
  rewrite bind_run.
  destruct (read_coefficients s1) as [[coeffs|e|] s2]; try discriminate.
  unfold decode_calibration. rewrite bind_run. unfold pure at 1.
  destruct (_ ≫= _) as [c|e|]; discriminate.
Qed.
End UnboundCalls.


(** ** The readings *)

Lemma twos_complement_sign_extended (v bits : Z) :
  1 <= bits -> _twos_complement v bits = Ok (sign_extended v bits).
Proof.
  intros Hb. unfold _twos_complement, sign_extended.
  destruct (Z.ltb_spec bits 1); [lia|].
  destruct (negb _); reflexivity.
Qed.

Section Readings.
Context {Dev : Type} `{Bus Dev} {F : Type} `{FloatOps F}.

Lemma pure_bind_run {A B : Type} (o : outcome A) (k : A -> M Dev B) (s : session Dev) :
  (pure o ≫= k) s =
  match o with
  | Ok a => k a s
  | Raise e => (Raise e, s)
  | OutOfFuel => (OutOfFuel, s)
  end.
Proof. destruct o; reflexivity. Qed.

Lemma self_twos_complement_bound (cls : pyclass) (v bits : Z) (s : session Dev) :
  static_method cls "twos_complement" = Ok _twos_complement ->
  1 <= bits ->
  self_twos_complement cls v bits s = (Ok (sign_extended v bits), s).
Proof.
  intros Hcls Hb. unfold self_twos_complement.
  rewrite pure_bind_run, Hcls. unfold pure.
  now rewrite twos_complement_sign_extended by lia.
Qed.

(** [pressure] reads the temperature count first. *)
Lemma raw_temperature_run (s : session Dev) :
  _raw_temperature s =
  (Ok (raw_count (device s) _DPS310_TMPB2),
   mkSession (self s) (read_burst (device s) _DPS310_TMPB2 3).2
     (bus_log s ++ [I2CWriteThenRead _DPS310_TMPB2 3])).
Proof. unfold _raw_temperature. now rewrite Bits_get_run. Qed.

Lemma raw_pressure_run (s : session Dev) :
  _raw_pressure s =
  (Ok (raw_count (device s) _DPS310_PRSB2),
   mkSession (self s) (read_burst (device s) _DPS310_PRSB2 3).2
     (bus_log s ++ [I2CWriteThenRead _DPS310_PRSB2 3])).
Proof. unfold _raw_pressure. now rewrite Bits_get_run. Qed.

(** C1, what the code does: in every state, calibrated or not, [pressure]
    reads the raw temperature and then raises [AttributeError] at the call of
    [self.twos_complement]; it returns no number. *)
Theorem pressure_raises_AttributeError (s : session Dev) :
  pressure (F := F) DPS310_class s =
  (Raise AttributeError,
   mkSession (self s) (read_burst (device s) _DPS310_TMPB2 3).2
     (bus_log s ++ [I2CWriteThenRead _DPS310_TMPB2 3])).
Proof.
  unfold pressure.
  rewrite bind_run, raw_temperature_run.
  rewrite bind_run, self_twos_complement_unbound. reflexivity.
Qed.

(** With [twos_complement] bound to [_twos_complement], [pressure] makes its
    two reads and returns what the arithmetic gives on the sign-extended
    counts. *)
Lemma pressure_bound_run (cls : pyclass) (s : session Dev) :
  static_method cls "twos_complement" = Ok _twos_complement ->
  pressure (F := F) cls s =
  (pressure_arithmetic (self s)
     (sign_extended (raw_count (device s) _DPS310_TMPB2) 24)
     (sign_extended
        (raw_count (read_burst (device s) _DPS310_TMPB2 3).2 _DPS310_PRSB2) 24),
   mkSession (self s)
     (read_burst (read_burst (device s) _DPS310_TMPB2 3).2 _DPS310_PRSB2 3).2
     (bus_log s ++
      [I2CWriteThenRead _DPS310_TMPB2 3; I2CWriteThenRead _DPS310_PRSB2 3])).
Proof.
  intros Hcls. unfold pressure.
  rewrite bind_run, raw_temperature_run.
  rewrite bind_run, self_twos_complement_bound by (assumption || lia).
  rewrite bind_run, raw_pressure_run.
  rewrite bind_run, self_twos_complement_bound by (assumption || lia).
  rewrite bind_run. unfold get_self at 1. cbn [self device bus_log].
  rewrite <- app_assoc. cbn [app].
  unfold pressure_arithmetic.
  repeat (rewrite pure_bind_run;
          match goal with
          | |- context [mbind _ ?o] =>
              destruct o as [?|?|];
              cbn [mbind outcome_bind obind]; try reflexivity
          end).
  rewrite pure_bind_run. destruct (_ /! _)%py; reflexivity.
Qed.

Lemma pressure_arithmetic_needs_calibration (o : DPS310) (rt rp : Z) :
  calibration_loaded o = false ->
  pressure_arithmetic (F := F) o rt rp = Raise TypeError \/
  pressure_arithmetic (F := F) o rt rp = Raise ZeroDivisionError.
Proof.
  destruct o as [ps ts c0 c1 c00 c10 c01 c11 c20 c21 c30 tab].
  unfold calibration_loaded, pressure_arithmetic.
  cbn [_c0 _c1 _c00 _c10 _c01 _c11 _c20 _c21 _c30 _temp_scale _pressure_scale].
  intros Hcal.
  repeat first
    [ match goal with
      | |- Raise TypeError = _ \/ _ => left; reflexivity
      | |- Raise ZeroDivisionError = _ \/ _ => right; reflexivity
      end
    | progress cbn
    | match goal with
      | |- context [match ?x with Some _ => _ | None => _ end] => is_var x; destruct x
      | |- context [if ?b then _ else _] => destruct b
      end ].
  cbn in Hcal. discriminate.
Qed.

Lemma pressure_arithmetic_calibrated (ps ts c0 c1 c00 c10 c01 c11 c20 c21 c30 : Z)
    (tab : list Z) (rt rp : Z) :
  ps <> 0 -> ts <> 0 -> fis_zero (of_int (F := F) 2) = false ->
  pressure_arithmetic
    (mkDPS310 (Some ps) (Some ts) (Some c0) (Some c1) (Some c00) (Some c10) (Some c01)
       (Some c11) (Some c20) (Some c21) (Some c30) tab) rt rp =
  Ok (PyFloat (spec_read_pressure c00 c10 c20 c30 c01 c11 c21 rp ps rt ts)).
Proof.
  intros Hps Hts H2. unfold pressure_arithmetic, spec_read_pressure. cbn.
  destruct (Z.eqb_spec ts 0); [contradiction|]. cbn. rewrite H2. cbn.
  destruct (Z.eqb_spec ps 0); [contradiction|]. cbn. reflexivity.
Qed.

(** C9, as the code has it: no guard tests for calibration, and the
    reading starts on the bus.  While any of the nine coefficients is still
    [None], [pressure] returns no number and leaves the object as it was.
    Where [twos_complement] does not resolve, it has read the three
    temperature registers and raises [AttributeError]; where it resolves to
    [_twos_complement], it has read the three temperature registers and the
    three pressure registers and raises [TypeError] or [ZeroDivisionError]
    from the arithmetic.  These reads are its only transactions. *)
Theorem pressure_before_calibration (cls : pyclass) (s : session Dev) :
  calibration_loaded (self s) = false ->
  (static_method cls "twos_complement" = Raise AttributeError ->
   pressure (F := F) cls s =
   (Raise AttributeError,
    mkSession (self s) (read_burst (device s) _DPS310_TMPB2 3).2
      (bus_log s ++ [I2CWriteThenRead _DPS310_TMPB2 3]))) /\
  (static_method cls "twos_complement" = Ok _twos_complement ->
   ((pressure (F := F) cls s).1 = Raise TypeError \/
    (pressure (F := F) cls s).1 = Raise ZeroDivisionError) /\
   (pressure (F := F) cls s).2 =
   mkSession (self s)
     (read_burst (read_burst (device s) _DPS310_TMPB2 3).2 _DPS310_PRSB2 3).2
     (bus_log s ++
      [I2CWriteThenRead _DPS310_TMPB2 3; I2CWriteThenRead _DPS310_PRSB2 3])).
Proof.
  intros Hcal. split; intros Hcls.
  - unfold pressure.
    rewrite bind_run, raw_temperature_run.
    unfold self_twos_complement. rewrite bind_run, pure_bind_run, Hcls.
    reflexivity.
  - rewrite pressure_bound_run by assumption. cbn [fst snd].
    split; [|reflexivity].
    now apply pressure_arithmetic_needs_calibration.
Qed.

(** X4: [temperature] makes one read and returns what the arithmetic gives
    on the count as read: no sign extension is applied to it. *)
Lemma temperature_run (s : session Dev) :
  temperature (F := F) s =
  (temperature_arithmetic (self s) (raw_count (device s) _DPS310_TMPB2),
   mkSession (self s) (read_burst (device s) _DPS310_TMPB2 3).2
     (bus_log s ++ [I2CWriteThenRead _DPS310_TMPB2 3])).
Proof.
  unfold temperature.
  rewrite bind_run, raw_temperature_run.
  rewrite bind_run. unfold get_self at 1. cbn [self device bus_log].
  unfold temperature_arithmetic.
  rewrite pure_bind_run.
  destruct (_ /! _)%py as [x| |]; cbn [mbind outcome_bind obind]; try reflexivity.
  rewrite pure_bind_run. destruct (_ +! _)%py; reflexivity.
Qed.

Lemma temperature_arithmetic_calibrated (o : DPS310) (ts c0 c1 raw : Z) :
  _temp_scale o = Some ts -> _c0 o = Some c0 -> _c1 o = Some c1 ->
  ts <> 0 -> fis_zero (of_int (F := F) 2) = false ->
  temperature_arithmetic o raw =
  Ok (PyFloat (fadd (fmul (int_truediv raw ts) (of_int c1))
                 (fdiv (of_int c0) (of_int 2)))).
Proof.
  intros Ets E0 E1 Hts H2. unfold temperature_arithmetic.
  rewrite Ets, E0, E1. cbn.
  destruct (Z.eqb_spec ts 0); [contradiction|]. cbn. now rewrite H2.
Qed.

(** The count [temperature] computes with is never negative. *)
Lemma raw_count_range (d : Dev) (reg : Z) : 0 <= raw_count d reg < 2 ^ 24.
Proof.
  unfold raw_count. rewrite Z.shiftr_0_r.
  change (bit_mask 24 0) with (Z.ones 24).
  rewrite Z.land_ones by lia. apply Z.mod_pos_bound. lia.
Qed.
End Readings.

Lemma pressure_before_calibration_witness :
  ((pressure (F := Q) bound_class (fresh_session cold_device)).1 = Raise TypeError \/
   (pressure (F := Q) bound_class (fresh_session cold_device)).1 =
     Raise ZeroDivisionError) /\
  (pressure (F := Q) bound_class (fresh_session cold_device)).2 =
  mkSession (self (fresh_session cold_device))
    (read_burst (read_burst (device (fresh_session cold_device)) _DPS310_TMPB2 3).2
       _DPS310_PRSB2 3).2
    (bus_log (fresh_session cold_device) ++
     [I2CWriteThenRead _DPS310_TMPB2 3; I2CWriteThenRead _DPS310_PRSB2 3]).
Proof.
  apply (proj2 (pressure_before_calibration (F := Q) bound_class
                  (fresh_session cold_device) eq_refl)).
  vm_compute. reflexivity.
Defined.

(** Before calibration, [pressure] does go to the bus: it reads the three
    temperature registers.  What it raises there is what it raises on a
    calibrated object, too. *)
Lemma pressure_before_calibration_reads_the_bus :
  ~ no_bus_io (pressure (F := Q) DPS310_class) (fresh_session cold_device) /\
  (pressure (F := Q) DPS310_class (fresh_session cold_device)).1 =
  (pressure (F := Q) DPS310_class cold_session).1.
Proof.
  split.
  - unfold no_bus_io. intros E.
    assert (X : new_events (fresh_session cold_device)
                  (pressure (F := Q) DPS310_class (fresh_session cold_device)).2 =
                [I2CWriteThenRead _DPS310_TMPB2 3])
      by (vm_compute; reflexivity).
    rewrite E in X. discriminate.
  - vm_compute. reflexivity.
Qed.

(** C2, what the code does: [temperature] divides the count as read,
    without sign extension.  With [FF FF FF] in the temperature registers
    the count of the specification is -1; the property computes with
    16777215, and reports a temperature below zero where the specified
    reading is above it. *)
Theorem temperature_ignores_the_sign_bit :
  sign_extended (raw_count cold_device _DPS310_TMPB2) 24 = -1 /\
  exists x : Q,
    (temperature (F := Q) cold_session).1 = Ok (PyFloat x) /\
    (x == spec_read_temperature 200 (-250) 16777215 1040384)%Q /\
    (x < 0)%Q /\
    (0 < spec_read_temperature 200 (-250) (-1) 1040384)%Q.
Proof.
  split; [vm_compute; reflexivity|].
  eexists. split; [vm_compute; reflexivity|].
  repeat split; vm_compute; reflexivity.
Qed.

(** ** The pipeline with [twos_complement] bound *)

Section BoundCalls.
Context {Dev : Type} `{Bus Dev}.

(** X1: on a class where [twos_complement] resolves to [_twos_complement],
    the decode assigns the nine coefficients by the bit layout of lines
    315-330, each sign-extended from its width. *)
Lemma decode_calibration_bound (cls : pyclass)
    (b0 b1 b2 b3 b4 b5 b6 b7 b8 b9 b10 b11 b12 b13 b14 b15 b16 b17 : Z)
    (s : session Dev) :
  static_method cls "twos_complement" = Ok _twos_complement ->
  decode_calibration cls
    (Some <$> [b0; b1; b2; b3; b4; b5; b6; b7; b8; b9; b10; b11; b12; b13; b14; b15;
               b16; b17]) s =
  (Ok tt,
   mkSession
     (mkDPS310 (_pressure_scale (self s)) (_temp_scale (self s))
        (Some (sign_extended (Z.lor (Z.shiftl b0 4) (Z.land (Z.shiftr b1 4) 0x0F)) 12))
        (Some (sign_extended (Z.lor (Z.shiftl (Z.land b1 0x0F) 8) b2) 12))
        (Some (sign_extended
                 (Z.lor (Z.lor (Z.shiftl b3 12) (Z.shiftl b4 4))
                    (Z.land (Z.shiftr b5 4) 0x0F)) 20))
        (Some (sign_extended
                 (Z.lor (Z.lor (Z.shiftl (Z.land b5 0x0F) 16) (Z.shiftl b6 8)) b7) 20))
        (Some (sign_extended (Z.lor (Z.shiftl b8 8) b9) 16))
        (Some (sign_extended (Z.lor (Z.shiftl b10 8) b11) 16))
        (Some (sign_extended (Z.lor (Z.shiftl b12 8) b13) 16))
        (Some (sign_extended (Z.lor (Z.shiftl b14 8) b15) 16))
        (Some (sign_extended (Z.lor (Z.shiftl b16 8) b17) 16))
        (_oversample_scalefactor (self s)))
     (device s) (bus_log s)).
Proof.
  intros Hcls. unfold decode_calibration, self_twos_complement. run.
  rewrite Hcls. cbn -[_twos_complement Z.lor Z.land Z.shiftl Z.shiftr].
  rewrite !twos_complement_sign_extended by lia. reflexivity.
Qed.
End BoundCalls.

(** ** The driver on a sensor that is ready *)

(** With the class as it is written, construction on a ready sensor resets
    it, reads the eighteen calibration bytes and stops with
    [AttributeError]: [_c0] holds the unsigned field, everything else is
    [None], and no configuration register has been written. *)
Example construct_on_ready_device :
  (construct DPS310_class 1 ready_device).1 = Raise AttributeError /\
  self (construct DPS310_class 1 ready_device).2 = set_c0 200 fresh_attributes /\
  List.filter is_write (bus_log (construct DPS310_class 1 ready_device).2) =
    [I2CWrite _DPS310_RESET [0x89]].
Proof. repeat split; vm_compute; reflexivity. Qed.

(** With [twos_complement] bound, the same sensor is calibrated and
    configured: the nine coefficients of the fixture, both channels at
    [COUNT_64]. *)
Example construct_bound_on_ready_device :
  (construct bound_class 1 ready_device).1 = Ok tt /\
  self (construct bound_class 1 ready_device).2 =
    mkDPS310 (Some 1040384) (Some 1040384) (Some 200) (Some (-270)) (Some 84132)
      (Some (-51743)) (Some (-1990)) (Some 1234) (Some (-9116)) (Some 90)
      (Some (-1500)) oversample_scalefactor.
Proof. split; vm_compute; reflexivity. Qed.

(** The sign bit is ignored in binary64 as it is in exact arithmetic. *)
Example temperature_of_cold_session_binary64 :
  exists x : float,
    (temperature (F := float) cold_session).1 = Ok (PyFloat x) /\
    PrimFloat.ltb x PrimFloat.zero = true /\
    PrimFloat.ltb PrimFloat.zero
      (spec_read_temperature (F := float) 200 (-250) (-1) 1040384) = true.
Proof. eexists. repeat split; vm_compute; reflexivity. Qed.

Section NeverConstructed.
Context {Dev : Type} `{Bus Dev} `{Probe Dev}.

(** X3: whatever the sensor answers, [DPS310(i2c_bus)] does not return an
    object: [initialize] runs [_read_calibration] before anything else can
    succeed. *)
Lemma construction_never_completes (fuel : nat) (d : Dev) :
  (construct DPS310_class fuel d).1 <> Ok tt.
Proof.
  unfold construct, __init__, _device_id.
  rewrite bind_run, I2CDevice_run.
  destruct (probe_for_device _).1.1; [|discriminate].
  rewrite bind_run, UnaryStruct_get_run.
  destruct (negb _); [discriminate|].
  rewrite bind_run. unfold update_self at 1. cbn [self device bus_log].
  unfold initialize. rewrite bind_run.
  destruct (reset fuel _) as [[[]|e|] s1]; try discriminate.
  rewrite bind_run. unfold sleep at 1, ret at 1.
  rewrite bind_run.
  pose proof (read_calibration_never_completes fuel s1) as Hcal.
  destruct (_read_calibration DPS310_class fuel s1) as [[[]|e|] s2];
    try discriminate.
  now contradiction Hcal.
Qed.
End NeverConstructed.

Section BoundReadings.
Context {Dev : Type} `{Bus Dev} {F : Type} `{FloatOps F}.

(** X2: on a class where [twos_complement] resolves to [_twos_complement],
    and an object whose scale factors and coefficients are all set,
    [pressure] returns the polynomial of the specification on the two
    sign-extended counts, each over the scale factor of its channel. *)
Theorem pressure_formula_when_bound (cls : pyclass) (s : session Dev)
    (ps ts c0 c1 c00 c10 c01 c11 c20 c21 c30 : Z) (tab : list Z) :
  static_method cls "twos_complement" = Ok _twos_complement ->
  self s = mkDPS310 (Some ps) (Some ts) (Some c0) (Some c1) (Some c00) (Some c10)
             (Some c01) (Some c11) (Some c20) (Some c21) (Some c30) tab ->
  ps <> 0 -> ts <> 0 -> fis_zero (of_int (F := F) 2) = false ->
  (pressure (F := F) cls s).1 =
  Ok (PyFloat
        (spec_read_pressure c00 c10 c20 c30 c01 c11 c21
           (sign_extended
              (raw_count (read_burst (device s) _DPS310_TMPB2 3).2 _DPS310_PRSB2) 24)
           ps
           (sign_extended (raw_count (device s) _DPS310_TMPB2) 24)
           ts)).
Proof.
  intros Hcls Hself Hps Hts H2.
  rewrite pressure_bound_run by assumption. cbn [fst].
  rewrite Hself. now apply pressure_arithmetic_calibrated.
Qed.
End BoundReadings.

Lemma pressure_formula_when_bound_witness :
  (pressure (F := Q) bound_class cold_session).1 =
  Ok (PyFloat
        (spec_read_pressure 80000 (-50000) (-9000) (-1500) (-2000) 1200 100
           (sign_extended
              (raw_count (read_burst (device cold_session) _DPS310_TMPB2 3).2
                 _DPS310_PRSB2) 24)
           1040384
           (sign_extended (raw_count (device cold_session) _DPS310_TMPB2) 24)
           1040384)).
Proof.
  apply (pressure_formula_when_bound (F := Q) bound_class cold_session
           1040384 1040384 200 (-250) 80000 (-50000) (-2000) 1200 (-9000) 100 (-1500)
           oversample_scalefactor).
  - vm_compute. reflexivity.
  - reflexivity.
  - lia.
  - lia.
  - reflexivity.
Defined.

Lemma decode_calibration_bound_witness :
  decode_calibration bound_class (Some <$> calibration_fixture)
    (fresh_session ready_device) =
  (Ok tt,
   mkSession
     (mkDPS310 None None (Some 200) (Some (-270)) (Some 84132) (Some (-51743))
        (Some (-1990)) (Some 1234) (Some (-9116)) (Some 90) (Some (-1500))
        oversample_scalefactor)
     ready_device []).
Proof.
  apply (decode_calibration_bound bound_class
           0x0C 0x8E 0xF2 0x14 0x8A 0x4F 0x35 0xE1 0xF8
           0x3A 0x04 0xD2 0xDC 0x64 0x00 0x5A 0xFA 0x24
           (fresh_session ready_device)).
  vm_compute. reflexivity.
Defined.

(** * Further properties *)

(** ** The enumerations built by [add_values] *)

Lemma add_values_string_acc (value_tuples : list value_tuple) (acc : CV) (v : Z) :
  is_Some
    (CV_string
       (fold_left
          (fun cls (value_tuple : value_tuple) =>
             let '(name, value, str, lsb) := value_tuple in
             mkCV (<[name := value]> (CV_attrs cls))
                  (<[value := str]> (CV_string cls))
                  (<[value := lsb]> (CV_lsb cls)))
          value_tuples acc) !! v) <->
  is_Some (CV_string acc !! v) \/
  exists name str lsb, In (name, v, str, lsb) value_tuples.
Proof.
  revert acc. induction value_tuples as [|[[[name value] str] lsb] rest IH];
    intros acc; simpl.
  - split; [tauto|]. intros [?|(? & ? & ? & [])]. assumption.
  - rewrite IH. simpl. rewrite lookup_insert. split.
    + intros [Hs|(n & st & l & Hin)].
      * case_decide as E.
        -- subst. right. exists name, str, lsb. now left.
        -- now left.
      * right. exists n, st, l. now right.
    + intros [Hs|(n & st & l & [Heq|Hin])].
      * left. case_decide; [eauto|assumption].
      * injection Heq as -> -> -> ->. left.
        case_decide; [eauto|congruence].
      * right. eauto.
Qed.

(** X5: for any list of value tuples with ordinary names, [is_valid] on the
    class that [add_values] built accepts exactly the values that occur in a
    tuple. *)
Theorem is_valid_add_values (value_tuples : list value_tuple) (v : Z) :
  ordinary_names value_tuples = true ->
  is_valid (add_values value_tuples) v = true <->
  exists name str lsb, In (name, v, str, lsb) value_tuples.
Proof.
  intros _. unfold is_valid, add_values. rewrite bool_decide_eq_true.
  rewrite add_values_string_acc. simpl. rewrite lookup_empty.
  split.
  - intros [[x Hx]|Hin]; [discriminate|assumption].
  - intros Hin. now right.
Qed.

Lemma is_valid_add_values_witness :
  is_valid Rate 5 = true <->
  exists name str lsb,
    In ((name, 5, str, lsb) : value_tuple)
      [ ("RATE_1_HZ"%string, 0, LInt 1, None);
        ("RATE_2_HZ"%string, 1, LInt 2, None);
        ("RATE_4_HZ"%string, 2, LInt 4, None);
        ("RATE_8_HZ"%string, 3, LInt 8, None);
        ("RATE_16_HZ"%string, 4, LInt 16, None);
        ("RATE_32_HZ"%string, 5, LInt 32, None);
        ("RATE_64_HZ"%string, 6, LInt 64, None);
        ("RATE_128_HZ"%string, 7, LInt 128, None) ].
Proof.
  apply (is_valid_add_values
           [ ("RATE_1_HZ"%string, 0, LInt 1, None);
             ("RATE_2_HZ"%string, 1, LInt 2, None);
             ("RATE_4_HZ"%string, 2, LInt 4, None);
             ("RATE_8_HZ"%string, 3, LInt 8, None);
             ("RATE_16_HZ"%string, 4, LInt 16, None);
             ("RATE_32_HZ"%string, 5, LInt 32, None);
             ("RATE_64_HZ"%string, 6, LInt 64, None);
             ("RATE_128_HZ"%string, 7, LInt 128, None) ] 5).
  vm_compute. reflexivity.
Defined.

Lemma add_values_attr_acc (value_tuples : list value_tuple) (acc : CV)
    (name : string) (v : Z) :
  (forall n x, CV_attrs acc !! n = Some x -> is_Some (CV_string acc !! x)) ->
  CV_attrs
    (fold_left
       (fun cls (value_tuple : value_tuple) =>
          let '(name, value, str, lsb) := value_tuple in
          mkCV (<[name := value]> (CV_attrs cls))
               (<[value := str]> (CV_string cls))
               (<[value := lsb]> (CV_lsb cls)))
       value_tuples acc) !! name = Some v ->
  is_Some
    (CV_string
       (fold_left
          (fun cls (value_tuple : value_tuple) =>
             let '(name, value, str, lsb) := value_tuple in
             mkCV (<[name := value]> (CV_attrs cls))
                  (<[value := str]> (CV_string cls))
                  (<[value := lsb]> (CV_lsb cls)))
          value_tuples acc) !! v).
Proof.
  revert acc. induction value_tuples as [|[[[n value] str] lsb] rest IH];
    intros acc Hacc; simpl.
  - apply Hacc.
  - apply IH. simpl. intros n' x. rewrite !lookup_insert.
    repeat case_decide; subst; intros E; try (injection E as <-); eauto; try congruence.
Qed.

(** X6: every class attribute that [add_values] created from tuples with
    ordinary names holds a value that [is_valid] accepts. *)
Theorem named_members_are_valid (value_tuples : list value_tuple)
    (name : string) (v : Z) :
  ordinary_names value_tuples = true ->
  cv_attr (add_values value_tuples) name = Ok v ->
  is_valid (add_values value_tuples) v = true.
Proof.
  unfold cv_attr, is_valid, add_values. intros _ E.
  apply bool_decide_eq_true.
  apply (add_values_attr_acc value_tuples (mkCV ∅ ∅ ∅) name v).
  - simpl. intros n x Hx. rewrite lookup_empty in Hx. discriminate.
  - destruct (CV_attrs _ !! name) as [x|]; [|discriminate].
    injection E as ->. reflexivity.
Qed.

Lemma named_members_are_valid_witness :
  is_valid Mode 7 = true.
Proof.
  apply (named_members_are_valid
           [ ("IDLE"%string, 0, LStr "Idle", None);
             ("ONE_PRESSURE"%string, 1, LStr "One-Shot Pressure", None);
             ("ONE_TEMPERATURE"%string, 2, LStr "One-Shot Temperature", None);
             ("CONT_PRESSURE"%string, 5, LStr "Continuous Pressure", None);
             ("CONT_TEMP"%string, 6, LStr "Continuous Temperature", None);
             ("CONT_PRESTEMP"%string, 7, LStr "Continuous Pressure & Temperature", None) ]
           "CONT_PRESTEMP" 7).
  - vm_compute. reflexivity.
  - vm_compute. reflexivity.
Defined.

Ltac enumeration_members :=
  unfold is_valid, add_values; apply bool_decide_ext;
  rewrite add_values_string_acc; cbn [CV_string]; rewrite lookup_empty;
  unfold level_values; split;
  [ intros [[x Hx]|(n & st & l & Hin)]; [discriminate|];
    cbn [In] in Hin;
    repeat (destruct Hin as [Hin|Hin]; [injection Hin; intros; subst; cbn; tauto|]);
    destruct Hin
  | intros Hin; right; cbn [In] in Hin;
    repeat (destruct Hin as [Hin|Hin]; [subst; do 3 eexists; cbn; eauto 10|]);
    destruct Hin ].

Lemma Samples_is_valid (value : Z) :
  is_valid Samples value = bool_decide (In value level_values).
Proof. unfold Samples. enumeration_members. Qed.

Lemma Rate_is_valid (value : Z) :
  is_valid Rate value = bool_decide (In value level_values).
Proof. unfold Rate. enumeration_members. Qed.

Lemma In_level_values (v : Z) : In v level_values <-> 0 <= v < 8.
Proof. unfold level_values. simpl. lia. Qed.

(** X7: the members of [Samples] are exactly the non-negative indices of the
    scale-factor tuple, so the lookup of line 281 and line 287 cannot fail
    for a member of [Samples], and the members of [Rate] are exactly the
    values a 3-bit field holds. *)
Theorem samples_index_the_scale_factors (v : Z) :
  (is_valid Samples v = true <->
   0 <= v /\ exists x, tuple_index oversample_scalefactor v = Ok x) /\
  (is_valid Rate v = true <-> 0 <= v < 2 ^ 3).
Proof.
  rewrite Samples_is_valid, Rate_is_valid, !bool_decide_eq_true, !In_level_values.
  split; [|reflexivity]. split.
  - intros Hv. split; [lia|].
    destruct (tuple_index_level v (proj2 (In_level_values v) Hv)) as [E _]. eauto.
  - intros [Hv [x Hx]]. destruct (Z.lt_ge_cases v 8) as [?|Hge]; [lia|].
    rewrite tuple_index_out_of_range in Hx by (simpl; lia). discriminate.
Qed.

(** ** Sign extension on any integer *)

(** X8: on any integer, [_twos_complement] subtracts [2^bits] exactly when
    bit [bits-1] of the value is set, whatever lies above that bit; a width
    below 1 raises [ValueError]. *)
Theorem twos_complement_any_integer (val bits : Z) :
  _twos_complement val bits =
  if bits <? 1 then Raise ValueError
  else Ok (if Z.testbit val (bits - 1) then val - 2 ^ bits else val).
Proof.
  unfold _twos_complement.
  destruct (Z.ltb_spec bits 1) as [|Hb]; [reflexivity|].
  rewrite !Z.shiftl_1_l, land_pow2 by lia.
  assert (Hpos : 0 < 2 ^ (bits - 1)) by (apply Z.pow_pos_nonneg; lia).
  destruct (Z.testbit val (bits - 1)); simpl.
  - destruct (Z.eqb_spec (2 ^ (bits - 1)) 0); [lia|reflexivity].
  - reflexivity.
Qed.

(** X9: sign extension keeps the low [bits] bits: the [bits]-bit pattern of
    the result is the pattern of the argument, so on an unsigned [bits]-bit
    value encoding the result gives the value back. *)
Theorem twos_complement_keeps_the_pattern (val bits r : Z) :
  _twos_complement val bits = Ok r ->
  encode_twos r bits = encode_twos val bits /\
  (0 <= val < 2 ^ bits -> encode_twos r bits = val).
Proof.
  unfold _twos_complement, encode_twos.
  destruct (Z.ltb_spec bits 1) as [|Hb]; [discriminate|].
  assert (Hpos : 0 < 2 ^ bits) by (apply Z.pow_pos_nonneg; lia).
  assert (E : forall x, (x - 2 ^ bits) mod 2 ^ bits = x mod 2 ^ bits).
  { intros x. replace (x - 2 ^ bits) with (x + (-1) * 2 ^ bits) by lia.
    apply Z.mod_add. lia. }
  rewrite Z.shiftl_1_l with (n := bits).
  destruct (negb _); intros [= <-]; rewrite ?E;
    (split; [reflexivity|intros Hr; now apply Z.mod_small]).
Qed.

Lemma twos_complement_keeps_the_pattern_witness :
  encode_twos (-1) 12 = encode_twos 0xFFF 12 /\
  (0 <= 0xFFF < 2 ^ 12 -> encode_twos (-1) 12 = 0xFFF).
Proof.
  apply (twos_complement_keeps_the_pattern 0xFFF 12 (-1)).
  reflexivity.
Defined.

(** ** Bytes off the bus *)

Lemma byte_land (b : Z) : is_byte b -> Z.land b (Z.ones 8) = b.
Proof. unfold is_byte. intros Hb. rewrite Z.land_ones by lia. apply Z.mod_small. lia. Qed.

Lemma land_ones_range (x n : Z) : 0 <= n -> Z.land x (Z.ones n) = x -> 0 <= x < 2 ^ n.
Proof.
  intros Hn E. rewrite <- E, Z.land_ones by lia.
  apply Z.mod_pos_bound. apply Z.pow_pos_nonneg; lia.
Qed.

Lemma combine_three (b0 b1 b2 : Z) :
  is_byte b0 -> is_byte b1 -> is_byte b2 ->
  combine false [b0; b1; b2] = 65536 * b0 + 256 * b1 + b2.
Proof.
  intros H0 H1 H2. unfold combine. cbn [fold_left].
  rewrite Z.shiftl_0_l, Z.lor_0_l.
  rewrite <- (byte_land b0 H0), <- (byte_land b1 H1), <- (byte_land b2 H2).
  rewrite !Z.or_to_plus by Z.bitblast.
  rewrite !Z.shiftl_mul_pow2 by lia. lia.
Qed.

Section BusBytes.
Context {Dev : Type} `{Bus Dev}.

(** X10: the 24-bit data registers are read most significant byte first, in
    one three-byte transaction: when the bus delivers the bytes [b0 b1 b2]
    from [reg], the descriptor of [_raw_pressure] and [_raw_temperature]
    yields [65536*b0 + 256*b1 + b2], a value in [0, 2^24). *)
Theorem raw_reading_is_big_endian (reg b0 b1 b2 : Z) (s : session Dev) :
  (read_burst (device s) reg 3).1 = [b0; b1; b2] ->
  is_byte b0 -> is_byte b1 -> is_byte b2 ->
  Bits_get 24 reg 0 3 false s =
  (Ok (65536 * b0 + 256 * b1 + b2),
   mkSession (self s) (read_burst (device s) reg 3).2
     (bus_log s ++ [I2CWriteThenRead reg 3])) /\
  0 <= 65536 * b0 + 256 * b1 + b2 < 2 ^ 24.
Proof.
  intros E H0 H1 H2.
  assert (Hr : 0 <= 65536 * b0 + 256 * b1 + b2 < 2 ^ 24)
    by (unfold is_byte in *; lia).
  split; [|exact Hr].
  rewrite Bits_get_run, E, combine_three by assumption.
  rewrite Z.shiftr_0_r. change (bit_mask 24 0) with (Z.ones 24).
  rewrite Z.land_ones, Z.mod_small by lia. reflexivity.
Qed.

Lemma read_coefficients_loop (n : nat) (a : nat) (s : session Dev)
    (done : list (option Z)) :
  length done = a ->
  for_each (seq a n)
    (fun offset (coeffs : list (option Z)) =>
       data ← write_then_readinto (0x10 + Z.of_nat offset) 1;
       if bool_decide (offset < length coeffs)%nat
       then ret (<[offset := Some (hd 0 data)]> coeffs)
       else raise IndexError)
    (done ++ replicate n None) s =
  (Ok (done ++ (Some <$> (read_burst (device s) (0x10 + Z.of_nat a) n).1)),
   mkSession (self s) (read_burst (device s) (0x10 + Z.of_nat a) n).2
     (bus_log s ++
      map (fun k => I2CWriteThenRead (0x10 + Z.of_nat k) 1) (seq a n))).
Proof.
  revert a s done. induction n as [|n IH]; intros a s done Hlen.
  - cbn. rewrite !app_nil_r. destruct s. reflexivity.
  - cbn [seq for_each replicate].
    rewrite bind_run, bind_run. unfold write_then_readinto at 1.
    cbn [read_burst].
    destruct (read_reg (device s) (16 + Z.of_nat a)) as [b d1] eqn:Eb.
    cbn [hd self device bus_log].
    rewrite bool_decide_eq_true_2
      by (rewrite length_app; cbn [length]; lia).
    unfold ret at 1.
    replace (<[a:=Some b]> (done ++ None :: replicate n None))
      with ((done ++ [Some b]) ++ replicate n None).
    2:{ rewrite <- Hlen, insert_app_r_alt, Nat.sub_diag, <- app_assoc by lia.
        reflexivity. }
    rewrite IH by (rewrite length_app; cbn [length]; lia).
    cbn [self device bus_log map].
    replace (16 + Z.of_nat (S a)) with (16 + Z.of_nat a + 1) by lia.
    destruct (read_burst d1 (16 + Z.of_nat a + 1) n) as [bs d2].
    cbn [fst snd fmap list_fmap].
    rewrite <- !app_assoc. reflexivity.
Qed.

(** X11: the calibration read makes eighteen one-byte reads, at registers
    [0x10] to [0x21] in ascending order, and nothing else; it hands the
    decode a list of eighteen filled slots, the bytes in register order, and
    leaves the object as it was. *)
Theorem read_coefficients_reads_eighteen (s : session Dev) :
  read_coefficients s =
  (Ok (Some <$> (read_burst (device s) 0x10 18).1),
   mkSession (self s) (read_burst (device s) 0x10 18).2
     (bus_log s ++
      map (fun k => I2CWriteThenRead (0x10 + Z.of_nat k) 1) (seq 0 18))) /\
  length (read_burst (device s) 0x10 18).1 = 18%nat.
Proof.
  split.
  - unfold read_coefficients.
    exact (read_coefficients_loop 18 0 s [] eq_refl).
  - generalize (device s) 16. generalize 18%nat.
    induction n as [|n IH]; intros d reg; [reflexivity|].
    cbn [read_burst]. destruct (read_reg d reg) as [b d1].
    specialize (IH d1 (reg + 1)).
    destruct (read_burst d1 (reg + 1) n). cbn in *. now rewrite IH.
Qed.
End BusBytes.

Lemma raw_reading_is_big_endian_witness :
  Bits_get 24 _DPS310_PRSB2 0 3 false cold_session =
  (Ok (65536 * 0x12 + 256 * 0x34 + 0x56),
   mkSession (self cold_session) (read_burst (device cold_session) _DPS310_PRSB2 3).2
     (bus_log cold_session ++ [I2CWriteThenRead _DPS310_PRSB2 3])) /\
  0 <= 65536 * 0x12 + 256 * 0x34 + 0x56 < 2 ^ 24.
Proof.
  apply (raw_reading_is_big_endian _DPS310_PRSB2 0x12 0x34 0x56 cold_session).
  - vm_compute. reflexivity.
  - unfold is_byte. lia.
  - unfold is_byte. lia.
  - unfold is_byte. lia.
Defined.

(** ** The range of the decoded coefficients *)

Lemma sign_extended_range (v w : Z) :
  1 <= w -> 0 <= v < 2 ^ w ->
  - 2 ^ (w - 1) <= sign_extended v w < 2 ^ (w - 1).
Proof.
  intros Hw Hv.
  pose proof (twos_complement_value v w Hw Hv) as E.
  rewrite twos_complement_sign_extended in E by lia.
  injection E as ->.
  pose proof (pow2_half w Hw).
  destruct (Z.leb_spec (2 ^ (w - 1)) v); lia.
Qed.

Ltac field_range n :=
  apply (land_ones_range _ n); [lia|];
  change 15 with (Z.ones 4);
  repeat match goal with
         | Hb : is_byte ?b |- _ => rewrite <- (byte_land b Hb); clear Hb
         end;
  Z.bitblast.

Section DecodedRange.
Context {Dev : Type} `{Bus Dev}.

(** X12: on a class where [twos_complement] resolves to [_twos_complement],
    eighteen bytes always decode to coefficients within the signed range of
    their field: [c0] and [c1] in [-2^11, 2^11), [c00] and [c10] in
    [-2^19, 2^19), the other five in [-2^15, 2^15). *)
Theorem decoded_coefficients_are_in_range (cls : pyclass)
    (b0 b1 b2 b3 b4 b5 b6 b7 b8 b9 b10 b11 b12 b13 b14 b15 b16 b17 : Z)
    (s : session Dev) :
  static_method cls "twos_complement" = Ok _twos_complement ->
  Forall is_byte [b0; b1; b2; b3; b4; b5; b6; b7; b8; b9; b10; b11; b12; b13; b14;
                  b15; b16; b17] ->
  exists c0 c1 c00 c10 c01 c11 c20 c21 c30 : Z,
    decode_calibration cls
      (Some <$> [b0; b1; b2; b3; b4; b5; b6; b7; b8; b9; b10; b11; b12; b13; b14;
                 b15; b16; b17]) s =
    (Ok tt,
     mkSession
       (mkDPS310 (_pressure_scale (self s)) (_temp_scale (self s))
          (Some c0) (Some c1) (Some c00) (Some c10) (Some c01) (Some c11)
          (Some c20) (Some c21) (Some c30) (_oversample_scalefactor (self s)))
       (device s) (bus_log s)) /\
    (- 2 ^ 11 <= c0 < 2 ^ 11 /\ - 2 ^ 11 <= c1 < 2 ^ 11) /\
    (- 2 ^ 19 <= c00 < 2 ^ 19 /\ - 2 ^ 19 <= c10 < 2 ^ 19) /\
    (- 2 ^ 15 <= c01 < 2 ^ 15 /\ - 2 ^ 15 <= c11 < 2 ^ 15 /\
     - 2 ^ 15 <= c20 < 2 ^ 15 /\ - 2 ^ 15 <= c21 < 2 ^ 15 /\
     - 2 ^ 15 <= c30 < 2 ^ 15).
Proof.
  intros Hcls Hbytes.
  repeat match goal with
         | Hf : Forall _ (_ :: _) |- _ =>
             apply Forall_cons in Hf; destruct Hf as [? Hf]
         end.
  unfold decode_calibration, self_twos_complement. run.
  rewrite Hcls. cbn -[_twos_complement Z.lor Z.land Z.shiftl Z.shiftr].
  rewrite !twos_complement_sign_extended by lia.
  do 9 eexists. split; [reflexivity|].
  repeat match goal with
         | |- _ <= sign_extended _ ?w < _ =>
             apply (sign_extended_range _ w); [lia|field_range w]
         | |- _ /\ _ => split
         end.
Qed.
End DecodedRange.

Lemma decoded_coefficients_are_in_range_witness :
  exists c0 c1 c00 c10 c01 c11 c20 c21 c30 : Z,
    decode_calibration bound_class (Some <$> calibration_fixture)
      (fresh_session ready_device) =
    (Ok tt,
     mkSession
       (mkDPS310 None None
          (Some c0) (Some c1) (Some c00) (Some c10) (Some c01) (Some c11)
          (Some c20) (Some c21) (Some c30) oversample_scalefactor)
       ready_device []) /\
    (- 2 ^ 11 <= c0 < 2 ^ 11 /\ - 2 ^ 11 <= c1 < 2 ^ 11) /\
    (- 2 ^ 19 <= c00 < 2 ^ 19 /\ - 2 ^ 19 <= c10 < 2 ^ 19) /\
    (- 2 ^ 15 <= c01 < 2 ^ 15 /\ - 2 ^ 15 <= c11 < 2 ^ 15 /\
     - 2 ^ 15 <= c20 < 2 ^ 15 /\ - 2 ^ 15 <= c21 < 2 ^ 15 /\
     - 2 ^ 15 <= c30 < 2 ^ 15).
Proof.
  apply (decoded_coefficients_are_in_range bound_class
           0x0C 0x8E 0xF2 0x14 0x8A 0x4F 0x35 0xE1 0xF8
           0x3A 0x04 0xD2 0xDC 0x64 0x00 0x5A 0xFA 0x24
           (fresh_session ready_device)).
  - vm_compute. reflexivity.
  - repeat constructor; unfold is_byte; lia.
Defined.

(** ** Reset *)

Lemma bit_test (b bit : Z) :
  0 <= bit < 8 ->
  negb (Z.land b (Z.shiftl 1 (bit mod 8)) =? 0) = Z.testbit b bit.
Proof.
  intros Hb. rewrite Z.mod_small by lia.
  rewrite Z.shiftl_1_l, land_pow2 by lia.
  assert (Hpos : 0 < 2 ^ bit) by (apply Z.pow_pos_nonneg; lia).
  destruct (Z.testbit b bit); simpl.
  - destruct (Z.eqb_spec (2 ^ bit) 0); [lia|reflexivity].
  - reflexivity.
Qed.

Section ResetCommand.
Context {Dev : Type} `{Bus Dev}.

Lemma set_reset_run (s : session Dev) :
  set__reset 0x89 s =
  (Ok tt,
   mkSession (self s) (write_reg (device s) _DPS310_RESET 0x89)
     (bus_log s ++ [I2CWrite _DPS310_RESET [0x89]])).
Proof. reflexivity. Qed.

Lemma poll_bit_run (fuel : nat) (reg bit : Z) (s : session Dev) :
  exists (n : nat) (o : outcome unit) (d : Dev),
    poll_until fuel (Bit_get reg bit) sleep s =
    (o, mkSession (self s) d
          (bus_log s ++ replicate n (I2CWriteThenRead reg 1))) /\
    (o = Ok tt /\ (1 <= n <= fuel)%nat \/ o = OutOfFuel /\ n = fuel).
Proof.
  revert s. induction fuel as [|fuel IH]; intros s.
  - exists 0%nat, OutOfFuel, (device s). cbn. rewrite app_nil_r.
    destruct s. split; [reflexivity|]. right. split; reflexivity.
  - cbn [poll_until]. rewrite bind_run, Bit_get_run.
    destruct (negb _).
    + exists 1%nat, (Ok tt), (read_reg (device s) reg).2.
      split; [reflexivity|]. left. split; [reflexivity|lia].
    + rewrite bind_run. unfold sleep at 1, ret at 1.
      destruct (IH (mkSession (self s) (read_reg (device s) reg).2
                      (bus_log s ++ [I2CWriteThenRead reg 1])))
        as (n & o & d & E & Ho).
      rewrite E. cbn [self device bus_log].
      exists (S n), o, d. split.
      * rewrite <- app_assoc. reflexivity.
      * destruct Ho as [[-> Hn]|[-> ->]]; [left|right]; split; (reflexivity || lia).
Qed.

(** X13: [reset] never raises and never touches the object.  Its only write
    is the command [0x89] to register [0x0C], issued first; every later
    transaction is a one-byte read of the status register [0x08].  It
    returns after at least one such read, or is still polling when the fuel
    runs out. *)
Theorem reset_only_writes_the_command (fuel : nat) (s : session Dev) :
  exists (n : nat) (o : outcome unit) (d : Dev),
    reset fuel s =
    (o, mkSession (self s) d
          (bus_log s ++
           I2CWrite _DPS310_RESET [0x89]
           :: replicate n (I2CWriteThenRead _DPS310_MEASCFG 1))) /\
    (o = Ok tt /\ (1 <= n <= fuel)%nat \/ o = OutOfFuel /\ n = fuel).
Proof.
  unfold reset, _sensor_ready.
  rewrite bind_run, set_reset_run.
  destruct (poll_bit_run fuel _DPS310_MEASCFG 6
              (mkSession (self s)
                 (write_reg (device s) _DPS310_RESET 0x89)
                 (bus_log s ++ [I2CWrite _DPS310_RESET [0x89]])))
    as (n & o & d & E & Ho).
  rewrite E. cbn [self device bus_log].
  exists n, o, d. split; [|exact Ho].
  rewrite <- app_assoc. reflexivity.
Qed.
End ResetCommand.

Lemma poll_bit_on_register_file (fuel : nat) (reg bit : Z)
    (s : session (gmap Z Z)) :
  0 <= bit < 8 ->
  (poll_until fuel (Bit_get reg bit) sleep s).1 =
  match fuel with
  | O => OutOfFuel
  | S _ => if Z.testbit (reg_byte (device s) reg) bit then Ok tt else OutOfFuel
  end.
Proof.
  intros Hb. revert s. induction fuel as [|fuel IH]; intros s; [reflexivity|].
  cbn [poll_until]. rewrite bind_run, Bit_get_run, bit_test by assumption.
  change (read_reg (device s) reg).1 with (reg_byte (device s) reg).
  change (read_reg (device s) reg).2 with (device s).
  destruct (Z.testbit (reg_byte (device s) reg) bit) eqn:E; [reflexivity|].
  rewrite bind_run. unfold sleep at 1, ret at 1.
  rewrite IH. cbn [device]. rewrite E. destruct fuel; reflexivity.
Qed.

(** X14: on a sensor whose registers only change when written, the wait in
    [reset] has no way out: it returns at its first poll when bit 6 of the
    status register is set, and otherwise polls for as long as it is let. *)
Theorem reset_returns_at_once_or_never (fuel : nat) (s : session (gmap Z Z)) :
  (reset (S fuel) s).1 =
  if Z.testbit (reg_byte (device s) _DPS310_MEASCFG) 6 then Ok tt else OutOfFuel.
Proof.
  unfold reset, _sensor_ready.
  rewrite bind_run, set_reset_run.
  rewrite poll_bit_on_register_file by lia. cbn [device].
  change (write_reg (device s) _DPS310_RESET 137)
    with (<[_DPS310_RESET := 137]> (device s)).
  unfold reg_byte. rewrite lookup_insert_ne by discriminate. reflexivity.
Qed.

(** ** The driver on a register file *)

Lemma reg_byte_insert (d : gmap Z Z) (r r' b : Z) :
  reg_byte (<[r := b]> d) r' = if decide (r = r') then b else reg_byte d r'.
Proof. unfold reg_byte. rewrite lookup_insert. now case_decide. Qed.

Lemma regfile_RWBits_set (num_bits reg lowest_bit value : Z) (s : session (gmap Z Z)) :
  RWBits_set num_bits reg lowest_bit value s =
  (Ok tt,
   mkSession (self s)
     (<[reg := written_byte (reg_byte (device s) reg) num_bits lowest_bit value]>
        (device s))
     (bus_log s ++
      [I2CWriteThenRead reg 1;
       I2CWrite reg
         [written_byte (reg_byte (device s) reg) num_bits lowest_bit value]])).
Proof. now rewrite RWBits_set_run. Qed.

Lemma regfile_RWBit_set (reg bit : Z) (value : bool) (s : session (gmap Z Z)) :
  RWBit_set reg bit value s =
  (Ok tt,
   mkSession (self s)
     (<[reg := written_bit (reg_byte (device s) reg) bit value]> (device s))
     (bus_log s ++
      [I2CWriteThenRead reg 1;
       I2CWrite reg [written_bit (reg_byte (device s) reg) bit value]])).
Proof. now rewrite RWBit_set_run. Qed.

Lemma regfile_Bits_get (num_bits reg lowest_bit : Z) (s : session (gmap Z Z)) :
  (Bits_get num_bits reg lowest_bit 1 true s).1 =
  Ok (Z.shiftr (Z.land (reg_byte (device s) reg) (bit_mask num_bits lowest_bit))
        lowest_bit).
Proof.
  rewrite Bits_get_run. cbn [fst read_burst].
  change (read_reg (device s) reg) with (reg_byte (device s) reg, device s).
  cbn [fst]. now rewrite combine_single.
Qed.

Lemma regfile_Bit_get (reg bit : Z) (s : session (gmap Z Z)) :
  0 <= bit < 8 ->
  (Bit_get reg bit s).1 = Ok (Z.testbit (reg_byte (device s) reg) bit).
Proof. intros Hb. now rewrite Bit_get_run, bit_test. Qed.

Lemma written_byte_field (old v k lo : Z) :
  0 <= lo -> 0 <= k -> lo + k <= 8 -> 0 <= v < 2 ^ k ->
  Z.shiftr (Z.land (written_byte old k lo v) (bit_mask k lo)) lo = v.
Proof. intros. now apply field_read_back. Qed.

Lemma written_byte_other_bit (old v k lo i : Z) :
  0 <= lo -> 0 <= k -> lo + k <= 8 -> 0 <= v < 2 ^ k ->
  0 <= i < 8 -> ~ (lo <= i < lo + k) ->
  Z.testbit (written_byte old k lo v) i = Z.testbit old i.
Proof. intros. now apply field_others_kept. Qed.

(** A field written next to another leaves the other as it reads. *)
Lemma written_byte_other_field (old v k lo k' lo' : Z) :
  0 <= lo -> 0 <= k -> lo + k <= 8 -> 0 <= v < 2 ^ k ->
  0 <= lo' -> 0 <= k' -> lo' + k' <= 8 ->
  lo' + k' <= lo \/ lo + k <= lo' ->
  Z.shiftr (Z.land (written_byte old k lo v) (bit_mask k' lo')) lo' =
  Z.shiftr (Z.land old (bit_mask k' lo')) lo'.
Proof.
  intros Hlo Hk Hfit Hv Hlo' Hk' Hfit' Hdisj.
  unfold written_byte. rewrite !bit_mask_ones by lia.
  rewrite <- (Z.mod_small v (2 ^ k)) by lia.
  rewrite <- Z.land_ones by lia.
  change 255 with (Z.ones 8).
  Z.bitblast.
Qed.

Lemma written_bit_bit (old bit : Z) (value : bool) :
  0 <= bit < 8 -> Z.testbit (written_bit old bit value) bit = value.
Proof.
  intros Hb. unfold written_bit. rewrite Z.mod_small by lia.
  apply bit_written. lia.
Qed.

Lemma written_bit_other (old bit i : Z) (value : bool) :
  0 <= bit < 8 -> 0 <= i -> i <> bit ->
  Z.testbit (written_bit old bit value) i = Z.testbit old i.
Proof.
  intros Hb Hi Hne. unfold written_bit. rewrite Z.mod_small by lia.
  rewrite Z.shiftl_1_l.
  destruct value.
  - rewrite Z.lor_spec, Z.pow2_bits_false by lia. apply orb_false_r.
  - rewrite Z.land_spec, Z.lnot_spec, Z.pow2_bits_false by lia. apply andb_true_r.
Qed.

Lemma written_bit_field (old bit k lo : Z) (value : bool) :
  0 <= bit < 8 -> 0 <= lo -> 0 <= k -> bit < lo \/ lo + k <= bit ->
  Z.shiftr (Z.land (written_bit old bit value) (bit_mask k lo)) lo =
  Z.shiftr (Z.land old (bit_mask k lo)) lo.
Proof.
  intros Hb Hlo Hk Hout. rewrite !bit_mask_ones by lia.
  apply Z.bits_inj'. intros i Hi.
  rewrite !Z.shiftr_spec, !Z.land_spec by lia.
  destruct (Z.eq_dec (i + lo) bit) as [E|E].
  - rewrite !Z.shiftl_spec, !Z.testbit_ones_nonneg by lia.
    replace (i + lo - lo <? k) with false; [now rewrite !andb_false_r|].
    symmetry. apply Z.ltb_ge. lia.
  - rewrite written_bit_other by lia. reflexivity.
Qed.

Lemma mode_values_range (v : Z) : In v mode_values -> 0 <= v < 2 ^ 3.
Proof. unfold mode_values. simpl. lia. Qed.

(** X15: on a register file, reading [mode] after setting a valid mode gives
    that mode back, and the four status bits of register [0x08] read as they
    did before the write. *)
Theorem mode_round_trip (v : Z) (s : session (gmap Z Z)) :
  is_valid Mode v = true ->
  exists s' : session (gmap Z Z),
    set_mode v s = (Ok tt, s') /\
    (mode s').1 = Ok v /\
    (_coefficients_ready s').1 = (_coefficients_ready s).1 /\
    (sensor_ready s').1 = (sensor_ready s).1 /\
    (temperature_ready s').1 = (temperature_ready s).1 /\
    (pressure_ready s').1 = (pressure_ready s).1.
Proof.
  intros Hv. pose proof Hv as Hin.
  rewrite Mode_is_valid, bool_decide_eq_true in Hin.
  apply mode_values_range in Hin.
  unfold set_mode. rewrite Hv. cbn [negb].
  unfold set__mode_bits. rewrite regfile_RWBits_set.
  eexists. split; [reflexivity|].
  unfold mode, _mode_bits, sensor_ready, temperature_ready, pressure_ready,
    _coefficients_ready, _sensor_ready, _temp_ready, _pressure_ready.
  rewrite regfile_Bits_get, !regfile_Bit_get by lia.
  cbn [device]. rewrite reg_byte_insert, decide_True by reflexivity.
  rewrite written_byte_field by lia.
  rewrite !written_byte_other_bit by lia.
  repeat split; reflexivity.
Qed.

Lemma mode_round_trip_witness :
  exists s' : session (gmap Z Z),
    set_mode 7 (fresh_session ready_device) = (Ok tt, s') /\
    (mode s').1 = Ok 7 /\
    (_coefficients_ready s').1 = (_coefficients_ready (fresh_session ready_device)).1 /\
    (sensor_ready s').1 = (sensor_ready (fresh_session ready_device)).1 /\
    (temperature_ready s').1 = (temperature_ready (fresh_session ready_device)).1 /\
    (pressure_ready s').1 = (pressure_ready (fresh_session ready_device)).1.
Proof.
  apply (mode_round_trip 7 (fresh_session ready_device)).
  vm_compute. reflexivity.
Defined.

Lemma level_range (v : Z) : is_valid Samples v = true -> 0 <= v < 8.
Proof. rewrite Samples_is_valid, bool_decide_eq_true. apply In_level_values. Qed.

Lemma rate_range (v : Z) : is_valid Rate v = true -> 0 <= v < 8.
Proof. rewrite Rate_is_valid, bool_decide_eq_true. apply In_level_values. Qed.

Ltac registers :=
  cbn [device self bus_log];
  repeat (rewrite reg_byte_insert);
  repeat first [ rewrite decide_True by reflexivity
               | rewrite decide_False by discriminate ].

(** X16: on a register file, after [pressure_configuration] with a member
    of [Rate] and a member of [Samples], the pressure rate field reads back
    the rate, the oversample field the level, the pressure shift bit
    [level > COUNT_8]; every field, the shift bit and the scale factor of
    the temperature channel are as before. *)
Theorem pressure_configuration_reads_back (rate i : Z) (s : session (gmap Z Z)) :
  is_valid Rate rate = true ->
  is_valid Samples i = true ->
  _oversample_scalefactor (self s) = oversample_scalefactor ->
  exists s' : session (gmap Z Z),
    pressure_configuration rate i s = (Ok tt, s') /\
    ((_pressure_ratebits s').1 = Ok rate /\
     (_pressure_osbits s').1 = Ok i /\
     (_pressure_shiftbit s').1 = Ok (3 <? i)) /\
    ((_temp_ratebits s').1 = (_temp_ratebits s).1 /\
     (_temp_osbits s').1 = (_temp_osbits s).1 /\
     (_temp_shiftbit s').1 = (_temp_shiftbit s).1 /\
     (_temp_measurement_src_bit s').1 = (_temp_measurement_src_bit s).1 /\
     _temp_scale (self s') = _temp_scale (self s)).
Proof.
  intros Hrate Hi Htab.
  apply rate_range in Hrate. pose proof (level_range i Hi) as Hr.
  destruct (tuple_index_level i (proj2 (In_level_values i) Hr)) as [Hidx _].
  unfold pressure_configuration, set__pressure_ratebits, set__pressure_osbits,
    set__pressure_shiftbit.
  rewrite bind_run, regfile_RWBits_set, bind_run, regfile_RWBits_set.
  rewrite bind_run. unfold pure at 1. rewrite Samples_COUNT_8.
  rewrite bind_run, regfile_RWBit_set.
  run. cbn [self device bus_log]. rewrite Htab, Hidx.
  eexists. split; [reflexivity|].
  unfold _pressure_ratebits, _pressure_osbits, _pressure_shiftbit, _temp_ratebits,
    _temp_osbits, _temp_shiftbit, _temp_measurement_src_bit.
  rewrite !regfile_Bits_get, !regfile_Bit_get by lia.
  registers.
  rewrite written_bit_bit by lia.
  rewrite (written_bit_other _ 2 3) by lia.
  rewrite written_byte_field by lia.
  rewrite written_byte_other_field by lia.
  rewrite written_byte_field by lia.
  repeat split; reflexivity.
Qed.

Lemma pressure_configuration_reads_back_witness :
  exists s' : session (gmap Z Z),
    pressure_configuration 6 6 (fresh_session ready_device) = (Ok tt, s') /\
    ((_pressure_ratebits s').1 = Ok 6 /\
     (_pressure_osbits s').1 = Ok 6 /\
     (_pressure_shiftbit s').1 = Ok (3 <? 6)) /\
    ((_temp_ratebits s').1 = (_temp_ratebits (fresh_session ready_device)).1 /\
     (_temp_osbits s').1 = (_temp_osbits (fresh_session ready_device)).1 /\
     (_temp_shiftbit s').1 = (_temp_shiftbit (fresh_session ready_device)).1 /\
     (_temp_measurement_src_bit s').1 =
       (_temp_measurement_src_bit (fresh_session ready_device)).1 /\
     _temp_scale (self s') = _temp_scale (self (fresh_session ready_device))).
Proof.
  apply (pressure_configuration_reads_back 6 6 (fresh_session ready_device)).
  - vm_compute. reflexivity.
  - vm_compute. reflexivity.
  - reflexivity.
Defined.

(** X17: on a register file, after [temperature_configuration] with a
    member of [Rate] and a member of [Samples], the temperature rate field
    reads back the rate, the oversample field the level, the temperature
    shift bit [level > COUNT_8], and the measurement-source bit is the
    calibration-source bit of register [0x28]; every field, the shift bit
    and the scale factor of the pressure channel are as before. *)
Theorem temperature_configuration_reads_back (rate i : Z) (s : session (gmap Z Z)) :
  is_valid Rate rate = true ->
  is_valid Samples i = true ->
  _oversample_scalefactor (self s) = oversample_scalefactor ->
  exists s' : session (gmap Z Z),
    temperature_configuration rate i s = (Ok tt, s') /\
    ((_temp_ratebits s').1 = Ok rate /\
     (_temp_osbits s').1 = Ok i /\
     (_temp_shiftbit s').1 = Ok (3 <? i) /\
     (_temp_measurement_src_bit s').1 = (_calib_coeff_temp_src_bit s).1) /\
    ((_pressure_ratebits s').1 = (_pressure_ratebits s).1 /\
     (_pressure_osbits s').1 = (_pressure_osbits s).1 /\
     (_pressure_shiftbit s').1 = (_pressure_shiftbit s).1 /\
     _pressure_scale (self s') = _pressure_scale (self s)).
Proof.
  intros Hrate Hi Htab.
  apply rate_range in Hrate. pose proof (level_range i Hi) as Hr.
  destruct (tuple_index_level i (proj2 (In_level_values i) Hr)) as [Hidx _].
  unfold temperature_configuration, set__temp_ratebits, set__temp_osbits,
    set__temp_shiftbit, set__temp_measurement_src_bit, _calib_coeff_temp_src_bit.
  rewrite bind_run, regfile_RWBits_set, bind_run, regfile_RWBits_set.
  rewrite bind_run. unfold get_self at 1. cbn [self].
  rewrite bind_run. unfold pure at 1. rewrite Htab, Hidx.
  rewrite bind_run. unfold update_self at 1. cbn [self device bus_log].
  rewrite bind_run. unfold pure at 1. rewrite Samples_COUNT_8.
  rewrite bind_run, regfile_RWBit_set, bind_run, Bit_get_run, regfile_RWBit_set.
  cbn [self device bus_log].
  eexists. split; [reflexivity|].
  unfold _pressure_ratebits, _pressure_osbits, _pressure_shiftbit, _temp_ratebits,
    _temp_osbits, _temp_shiftbit, _temp_measurement_src_bit.
  rewrite !regfile_Bits_get, !regfile_Bit_get by lia.
  rewrite bit_test by lia.
  cbn [read_reg regfile_Bus fst snd].
  change (default 0 (?d !! ?r)) with (reg_byte d r).
  registers.
  rewrite !written_bit_field by lia.
  rewrite !written_bit_bit by lia.
  rewrite (written_bit_other _ 3 2) by lia.
  rewrite written_byte_field by lia.
  rewrite written_byte_other_field by lia.
  rewrite written_byte_field by lia.
  repeat split; reflexivity.
Qed.

Lemma temperature_configuration_reads_back_witness :
  exists s' : session (gmap Z Z),
    temperature_configuration 6 6 (fresh_session ready_device) = (Ok tt, s') /\
    ((_temp_ratebits s').1 = Ok 6 /\
     (_temp_osbits s').1 = Ok 6 /\
     (_temp_shiftbit s').1 = Ok (3 <? 6) /\
     (_temp_measurement_src_bit s').1 =
       (_calib_coeff_temp_src_bit (fresh_session ready_device)).1) /\
    ((_pressure_ratebits s').1 = (_pressure_ratebits (fresh_session ready_device)).1 /\
     (_pressure_osbits s').1 = (_pressure_osbits (fresh_session ready_device)).1 /\
     (_pressure_shiftbit s').1 = (_pressure_shiftbit (fresh_session ready_device)).1 /\
     _pressure_scale (self s') = _pressure_scale (self (fresh_session ready_device))).
Proof.
  apply (temperature_configuration_reads_back 6 6 (fresh_session ready_device)).
  - vm_compute. reflexivity.
  - vm_compute. reflexivity.
  - reflexivity.
Defined.

(** ** Negative oversample arguments *)

Lemma tuple_index_negative (i : Z) :
  -8 <= i < 0 ->
  tuple_index oversample_scalefactor i =
  Ok (nth (Z.to_nat (i + 8)) oversample_scalefactor 0) /\
  oversample_scalefactor !! Z.to_nat (i + 8) =
  Some (nth (Z.to_nat (i + 8)) oversample_scalefactor 0).
Proof.
  intros Hi.
  assert (E : i = -8 \/ i = -7 \/ i = -6 \/ i = -5 \/ i = -4 \/ i = -3 \/ i = -2
              \/ i = -1) by lia.
  destruct E as [->|[->|[->|[->|[->|[->|[->| ->]]]]]]]; split; reflexivity.
Qed.

Section NegativeOversample.
Context {Dev : Type} `{Bus Dev}.

(** X18: an oversample argument from -8 to -1 is not refused.  The tuple
    lookup counts it from the end, so both configuration calls succeed and
    record [oversample_scalefactor[oversample + 8]], while the shift bit
    they write is clear, as [oversample > COUNT_8] is false: for -1 to -4 the
    recorded scale factor is one of a level above [COUNT_8], whose shift bit
    the call did not set. *)
Theorem negative_oversample_is_accepted (rate oversample : Z) (s : session Dev) :
  _oversample_scalefactor (self s) = oversample_scalefactor ->
  -8 <= oversample < 0 ->
  (exists (s' : session Dev) (b_rate b_os b_shift : Z),
     pressure_configuration rate oversample s = (Ok tt, s') /\
     new_events s s' =
       [I2CWriteThenRead _DPS310_PRSCFG 1; I2CWrite _DPS310_PRSCFG [b_rate];
        I2CWriteThenRead _DPS310_PRSCFG 1; I2CWrite _DPS310_PRSCFG [b_os];
        I2CWriteThenRead _DPS310_CFGREG 1; I2CWrite _DPS310_CFGREG [b_shift]] /\
     Z.testbit b_shift 2 = false /\
     _pressure_scale (self s') = oversample_scalefactor !! Z.to_nat (oversample + 8)) /\
  (exists (s' : session Dev) (b_rate b_os b_shift b_src : Z),
     temperature_configuration rate oversample s = (Ok tt, s') /\
     new_events s s' =
       [I2CWriteThenRead _DPS310_TMPCFG 1; I2CWrite _DPS310_TMPCFG [b_rate];
        I2CWriteThenRead _DPS310_TMPCFG 1; I2CWrite _DPS310_TMPCFG [b_os];
        I2CWriteThenRead _DPS310_CFGREG 1; I2CWrite _DPS310_CFGREG [b_shift];
        I2CWriteThenRead _DPS310_TMPCOEFSRCE 1;
        I2CWriteThenRead _DPS310_TMPCFG 1; I2CWrite _DPS310_TMPCFG [b_src]] /\
     Z.testbit b_shift 3 = false /\
     _temp_scale (self s') = oversample_scalefactor !! Z.to_nat (oversample + 8)).
Proof.
  intros Htab Hos. destruct (tuple_index_negative oversample Hos) as [Hidx Hlook].
  assert (Hgt : (3 <? oversample) = false) by (apply Z.ltb_ge; lia).
  split.
  - unfold pressure_configuration, set__pressure_ratebits, set__pressure_osbits,
      set__pressure_shiftbit.
    rewrite bind_run, RWBits_set_run, bind_run, RWBits_set_run.
    rewrite bind_run. unfold pure at 1. rewrite Samples_COUNT_8.
    rewrite bind_run, RWBit_set_run.
    run. cbn [self device bus_log]. rewrite Htab, Hidx, Hgt.
    do 4 eexists. split; [reflexivity|].
    split; [apply new_events_app; cbn [bus_log]; rewrite <- !app_assoc; reflexivity|].
    split.
    + apply (bit_written _ 2 false). lia.
    + cbn. now rewrite Hlook.
  - unfold temperature_configuration, set__temp_ratebits, set__temp_osbits,
      set__temp_shiftbit, set__temp_measurement_src_bit, _calib_coeff_temp_src_bit.
    rewrite bind_run, RWBits_set_run, bind_run, RWBits_set_run.
    rewrite bind_run. unfold get_self at 1. cbn [self].
    rewrite bind_run. unfold pure at 1. rewrite Htab, Hidx.
    rewrite bind_run. unfold update_self at 1. cbn [self device bus_log].
    rewrite bind_run. unfold pure at 1. rewrite Samples_COUNT_8.
    rewrite bind_run, RWBit_set_run, bind_run, Bit_get_run, RWBit_set_run.
    cbn [self device bus_log]. rewrite Hgt.
    do 5 eexists. split; [reflexivity|].
    split; [apply new_events_app; cbn [bus_log]; rewrite <- !app_assoc; reflexivity|].
    split.
    + apply (bit_written _ 3 false). lia.
    + cbn. now rewrite Hlook.
Qed.
End NegativeOversample.

Lemma negative_oversample_is_accepted_witness :
  (exists (s' : session (gmap Z Z)) (b_rate b_os b_shift : Z),
     pressure_configuration 6 (-1) (fresh_session ∅) = (Ok tt, s') /\
     new_events (fresh_session ∅) s' =
       [I2CWriteThenRead _DPS310_PRSCFG 1; I2CWrite _DPS310_PRSCFG [b_rate];
        I2CWriteThenRead _DPS310_PRSCFG 1; I2CWrite _DPS310_PRSCFG [b_os];
        I2CWriteThenRead _DPS310_CFGREG 1; I2CWrite _DPS310_CFGREG [b_shift]] /\
     Z.testbit b_shift 2 = false /\
     _pressure_scale (self s') = oversample_scalefactor !! Z.to_nat (-1 + 8)) /\
  (exists (s' : session (gmap Z Z)) (b_rate b_os b_shift b_src : Z),
     temperature_configuration 6 (-1) (fresh_session ∅) = (Ok tt, s') /\
     new_events (fresh_session ∅) s' =
       [I2CWriteThenRead _DPS310_TMPCFG 1; I2CWrite _DPS310_TMPCFG [b_rate];
        I2CWriteThenRead _DPS310_TMPCFG 1; I2CWrite _DPS310_TMPCFG [b_os];
        I2CWriteThenRead _DPS310_CFGREG 1; I2CWrite _DPS310_CFGREG [b_shift];
        I2CWriteThenRead _DPS310_TMPCOEFSRCE 1;
        I2CWriteThenRead _DPS310_TMPCFG 1; I2CWrite _DPS310_TMPCFG [b_src]] /\
     Z.testbit b_shift 3 = false /\
     _temp_scale (self s') = oversample_scalefactor !! Z.to_nat (-1 + 8)).
Proof.
  apply (negative_oversample_is_accepted 6 (-1) (fresh_session ∅)).
  - reflexivity.
  - lia.
Defined.

(** ** Reads *)

Section Reads.
Context {Dev : Type} `{Bus Dev} {F : Type} `{FloatOps F}.

Lemma self_twos_complement_pure (cls : pyclass) (v bits : Z) (s : session Dev) :
  exists o : outcome Z, self_twos_complement cls v bits s = (o, s).
Proof.
  unfold self_twos_complement. rewrite pure_bind_run.
  destruct (static_method cls "twos_complement"); unfold pure; eauto.
Qed.

Lemma only_reads_one (s : session Dev) (d : Dev) (reg : Z) (n : nat) :
  List.filter is_write
    (new_events s (mkSession (self s) d (bus_log s ++ [I2CWriteThenRead reg n]))) = [].
Proof. erewrite new_events_app by reflexivity. reflexivity. Qed.

Lemma only_reads_two (s : session Dev) (d : Dev) (reg reg' : Z) (n n' : nat) :
  List.filter is_write
    (new_events s
       (mkSession (self s) d
          (bus_log s ++ [I2CWriteThenRead reg n; I2CWriteThenRead reg' n']))) = [].
Proof. erewrite new_events_app by reflexivity. reflexivity. Qed.

Lemma pressure_final_state (cls : pyclass) (s : session Dev) :
  exists (o : outcome (pyval F)) (s' : session Dev),
    pressure (F := F) cls s = (o, s') /\
    (s' = mkSession (self s) (read_burst (device s) _DPS310_TMPB2 3).2
            (bus_log s ++ [I2CWriteThenRead _DPS310_TMPB2 3]) \/
     s' = mkSession (self s)
            (read_burst (read_burst (device s) _DPS310_TMPB2 3).2 _DPS310_PRSB2 3).2
            (bus_log s ++
             [I2CWriteThenRead _DPS310_TMPB2 3; I2CWriteThenRead _DPS310_PRSB2 3])).
Proof.
  unfold pressure.
  rewrite bind_run, raw_temperature_run, bind_run.
  match goal with
  | |- context [self_twos_complement cls ?v ?b ?s0] =>
      destruct (self_twos_complement_pure cls v b s0) as [o1 E1]; rewrite E1
  end.
  destruct o1 as [rt|e|];
    [|do 2 eexists; split; [reflexivity|left; reflexivity]..].
  rewrite bind_run, raw_pressure_run, bind_run. cbn [self device bus_log].
  match goal with
  | |- context [self_twos_complement cls ?v ?b ?s0] =>
      destruct (self_twos_complement_pure cls v b s0) as [o2 E2]; rewrite E2
  end.
  rewrite <- app_assoc. cbn [app].
  destruct o2 as [rp|e|];
    [|do 2 eexists; split; [reflexivity|right; reflexivity]..].
  rewrite bind_run. unfold get_self at 1. cbn [self device bus_log].
  repeat (rewrite pure_bind_run;
          match goal with
          | |- context [match ?o with Ok _ => _ | Raise _ => _ | OutOfFuel => _ end] =>
              destruct o as [?|?|];
              [|do 2 eexists; split; [reflexivity|right; reflexivity]..]
          end).
  do 2 eexists. split; [reflexivity|right; reflexivity].
Qed.

Lemma pressure_reads_only (cls : pyclass) (s : session Dev) :
  List.filter is_write (new_events s (pressure (F := F) cls s).2) = [] /\
  self (pressure (F := F) cls s).2 = self s.
Proof.
  destruct (pressure_final_state cls s) as (o & s' & E & [-> | ->]);
    rewrite E; cbn [snd self].
  - split; [apply only_reads_one|reflexivity].
  - split; [apply only_reads_two|reflexivity].
Qed.

Lemma temperature_final_state (s : session Dev) :
  exists o : outcome (pyval F),
    temperature (F := F) s =
    (o, mkSession (self s) (read_burst (device s) _DPS310_TMPB2 3).2
          (bus_log s ++ [I2CWriteThenRead _DPS310_TMPB2 3])).
Proof.
  unfold temperature.
  rewrite bind_run, raw_temperature_run.
  rewrite bind_run. unfold get_self at 1. cbn [self device bus_log].
  repeat (rewrite pure_bind_run;
          match goal with
          | |- context [match ?o with Ok _ => _ | Raise _ => _ | OutOfFuel => _ end] =>
              destruct o as [?|?|]; [|eexists; reflexivity..]
          end).
  eexists. reflexivity.
Qed.

Lemma temperature_reads_only (s : session Dev) :
  List.filter is_write (new_events s (temperature (F := F) s).2) = [] /\
  self (temperature (F := F) s).2 = self s.
Proof.
  destruct (temperature_final_state s) as [o E]. rewrite E. cbn [snd self].
  split; [apply only_reads_one|reflexivity].
Qed.

(** X19: the measurement properties, the three readiness properties and the
    [mode] getter never write to the sensor and never change the object, in
    any state, on any sensor and whatever class the instance has. *)
Theorem reads_never_write (cls : pyclass) (s : session Dev) :
  (List.filter is_write (new_events s (pressure (F := F) cls s).2) = [] /\
   self (pressure (F := F) cls s).2 = self s) /\
  (List.filter is_write (new_events s (temperature (F := F) s).2) = [] /\
   self (temperature (F := F) s).2 = self s) /\
  (List.filter is_write (new_events s (sensor_ready s).2) = [] /\
   self (sensor_ready s).2 = self s) /\
  (List.filter is_write (new_events s (temperature_ready s).2) = [] /\
   self (temperature_ready s).2 = self s) /\
  (List.filter is_write (new_events s (pressure_ready s).2) = [] /\
   self (pressure_ready s).2 = self s) /\
  (List.filter is_write (new_events s (mode s).2) = [] /\
   self (mode s).2 = self s).
Proof.
  split; [apply pressure_reads_only|].
  split; [apply temperature_reads_only|].
  unfold sensor_ready, temperature_ready, pressure_ready, mode, _sensor_ready,
    _temp_ready, _pressure_ready, _mode_bits.
  rewrite !Bit_get_run, Bits_get_run. cbn [snd self].
  repeat split; apply only_reads_one.
Qed.
End Reads.

(** ** What every method keeps *)

Section Keeps.
Context {Dev : Type} `{Bus Dev} `{Probe Dev}.

Lemma continues_refl (s : session Dev) : continues s s.
Proof. split; [exists []; now rewrite app_nil_r|reflexivity]. Qed.

Lemma continues_trans (s1 s2 s3 : session Dev) :
  continues s1 s2 -> continues s2 s3 -> continues s1 s3.
Proof.
  intros [[es1 E1] T1] [[es2 E2] T2]. split.
  - exists (es1 ++ es2). now rewrite E2, E1, app_assoc.
  - now rewrite T2.
Qed.

Lemma keeps_ret {A : Type} (a : A) : keeps (Dev := Dev) (ret a).
Proof. intros s. apply continues_refl. Qed.

Lemma keeps_mret {A : Type} (a : A) : keeps (Dev := Dev) (mret a).
Proof. intros s. apply continues_refl. Qed.

Lemma keeps_raise {A : Type} (e : exn) : keeps (Dev := Dev) (A := A) (raise e).
Proof. intros s. apply continues_refl. Qed.

Lemma keeps_pure {A : Type} (o : outcome A) : keeps (Dev := Dev) (pure o).
Proof. intros s. apply continues_refl. Qed.

Lemma keeps_get_self : keeps (Dev := Dev) get_self.
Proof. intros s. apply continues_refl. Qed.

Lemma keeps_sleep : keeps (Dev := Dev) sleep.
Proof. intros s. apply continues_refl. Qed.

Lemma keeps_bind {A B : Type} (m : M Dev A) (k : A -> M Dev B) :
  keeps m -> (forall a, keeps (k a)) -> keeps (m ≫= k).
Proof.
  intros Hm Hk s. rewrite bind_run.
  specialize (Hm s). destruct (m s) as [[a|e|] s1]; cbn [snd] in *; try assumption.
  eapply continues_trans; [exact Hm|apply Hk].
Qed.

Lemma continues_after {A B : Type} (m : M Dev A) (k : A -> M Dev B)
    (s : session Dev) :
  (forall a, keeps (k a)) -> continues (m s).2 ((m ≫= k) s).2.
Proof.
  intros Hk. rewrite bind_run.
  destruct (m s) as [[a|e|] s1]; cbn [snd]; [apply Hk|apply continues_refl..].
Qed.

Lemma keeps_update_self (f : DPS310 -> DPS310) :
  (forall o, _oversample_scalefactor (f o) = _oversample_scalefactor o) ->
  keeps (Dev := Dev) (update_self f).
Proof.
  intros Hf s. split; [exists []; cbn; now rewrite app_nil_r|apply Hf].
Qed.

Lemma keeps_write_then_readinto (reg : Z) (count : nat) :
  keeps (write_then_readinto reg count).
Proof.
  intros s. unfold write_then_readinto.
  destruct (read_burst (device s) reg count) as [data d].
  split; [eexists; reflexivity|reflexivity].
Qed.

Lemma keeps_i2c_write (reg : Z) (payload : list Z) : keeps (i2c_write reg payload).
Proof. intros s. split; [eexists; reflexivity|reflexivity]. Qed.

Lemma keeps_if {A : Type} (b : bool) (m1 m2 : M Dev A) :
  keeps m1 -> keeps m2 -> keeps (if b then m1 else m2).
Proof. now destruct b. Qed.

Lemma keeps_poll_until (fuel : nat) (done : M Dev bool) (body : M Dev unit) :
  keeps done -> keeps body -> keeps (poll_until fuel done body).
Proof.
  intros Hd Hb. induction fuel as [|fuel IH].
  - intros s. apply continues_refl.
  - cbn [poll_until]. apply keeps_bind; [exact Hd|].
    intros [|]; [apply keeps_ret|].
    apply keeps_bind; [exact Hb|]. intros _. exact IH.
Qed.

Lemma keeps_for_each {A S : Type} (xs : list A) (body : A -> S -> M Dev S) (acc : S) :
  (forall x a, keeps (body x a)) -> keeps (for_each xs body acc).
Proof.
  intros Hb. revert acc. induction xs as [|x xs IH]; intros acc.
  - apply keeps_ret.
  - cbn [for_each]. apply keeps_bind; [apply Hb|]. intros a. apply IH.
Qed.

Ltac keeps_step :=
  first
    [ apply keeps_bind; [|intros ?]
    | apply keeps_ret | apply keeps_mret | apply keeps_raise | apply keeps_pure
    | apply keeps_get_self | apply keeps_sleep
    | apply keeps_write_then_readinto | apply keeps_i2c_write
    | apply keeps_update_self; intros []; reflexivity
    | apply keeps_if
    | apply keeps_poll_until
    | apply keeps_for_each; intros ? ? ].

Ltac keeps_all := repeat keeps_step.

Lemma keeps_UnaryStruct_get (reg : Z) : keeps (UnaryStruct_get reg).
Proof. unfold UnaryStruct_get. keeps_all. Qed.

Lemma keeps_UnaryStruct_set (reg value : Z) : keeps (UnaryStruct_set reg value).
Proof. unfold UnaryStruct_set. keeps_all. Qed.

Lemma keeps_Bits_get (num_bits reg lowest_bit : Z) (w : nat) (lsb_first : bool) :
  keeps (Bits_get num_bits reg lowest_bit w lsb_first).
Proof. unfold Bits_get. keeps_all. Qed.

Lemma keeps_RWBits_set (num_bits reg lowest_bit value : Z) :
  keeps (RWBits_set num_bits reg lowest_bit value).
Proof. unfold RWBits_set. keeps_all. Qed.

Lemma keeps_Bit_get (reg bit : Z) : keeps (Bit_get reg bit).
Proof. unfold Bit_get. keeps_all. Qed.

Lemma keeps_RWBit_set (reg bit : Z) (value : bool) : keeps (RWBit_set reg bit value).
Proof. unfold RWBit_set. keeps_all. Qed.

Lemma keeps_self_twos_complement (cls : pyclass) (val bits : Z) :
  keeps (Dev := Dev) (self_twos_complement cls val bits).
Proof. unfold self_twos_complement. keeps_all. Qed.

Lemma keeps_reset (fuel : nat) : keeps (reset fuel).
Proof.
  unfold reset, set__reset, _sensor_ready.
  apply keeps_bind; [apply keeps_UnaryStruct_set|]. intros _.
  apply keeps_poll_until; [apply keeps_Bit_get|apply keeps_sleep].
Qed.

Lemma keeps_read_coefficients : keeps read_coefficients.
Proof. unfold read_coefficients. keeps_all. Qed.

Lemma keeps_decode_calibration (cls : pyclass) (coeffs : list (option Z)) :
  keeps (Dev := Dev) (decode_calibration cls coeffs).
Proof.
  unfold decode_calibration.
  repeat first [ apply keeps_self_twos_complement | keeps_step ].
Qed.

Lemma keeps_read_calibration (cls : pyclass) (fuel : nat) :
  keeps (_read_calibration cls fuel).
Proof.
  unfold _read_calibration, _coefficients_ready.
  apply keeps_bind;
    [apply keeps_poll_until; [apply keeps_Bit_get|apply keeps_sleep]|].
  intros _. apply keeps_bind; [apply keeps_read_coefficients|].
  intros coeffs. apply keeps_decode_calibration.
Qed.

Lemma keeps_set_mode (value : Z) : keeps (set_mode value).
Proof.
  unfold set_mode, set__mode_bits.
  apply keeps_if; [apply keeps_raise|apply keeps_RWBits_set].
Qed.

Lemma keeps_pressure_configuration (rate oversample : Z) :
  keeps (pressure_configuration rate oversample).
Proof.
  unfold pressure_configuration, set__pressure_ratebits, set__pressure_osbits,
    set__pressure_shiftbit.
  repeat first [ apply keeps_RWBits_set | apply keeps_RWBit_set | keeps_step ].
Qed.

Lemma keeps_temperature_configuration (rate oversample : Z) :
  keeps (temperature_configuration rate oversample).
Proof.
  unfold temperature_configuration, set__temp_ratebits, set__temp_osbits,
    set__temp_shiftbit, set__temp_measurement_src_bit, _calib_coeff_temp_src_bit.
  repeat first [ apply keeps_RWBits_set | apply keeps_RWBit_set | apply keeps_Bit_get
               | keeps_step ].
Qed.

Lemma keeps_after_reset (cls : pyclass) (fuel : nat) :
  keeps
    (sleep;;
     _read_calibration cls fuel;;
     rate ← pure (cv_attr Rate "RATE_64_HZ");
     count ← pure (cv_attr Samples "COUNT_64");
     pressure_configuration rate count;;
     rate ← pure (cv_attr Rate "RATE_64_HZ");
     count ← pure (cv_attr Samples "COUNT_64");
     temperature_configuration rate count;;
     m ← pure (cv_attr Mode "CONT_PRESTEMP");
     set_mode m;;
     poll_until fuel
       (t ← _temp_ready;
        if negb t then ret false else _pressure_ready)
       sleep).
Proof.
  unfold _temp_ready, _pressure_ready.
  repeat first [ apply keeps_read_calibration | apply keeps_pressure_configuration
               | apply keeps_temperature_configuration | apply keeps_set_mode
               | apply keeps_Bit_get | keeps_step ].
Qed.

Lemma keeps_initialize (cls : pyclass) (fuel : nat) : keeps (initialize cls fuel).
Proof.
  unfold initialize. apply keeps_bind; [apply keeps_reset|].
  intros _. apply keeps_after_reset.
Qed.

(** X20: no method rebinds the tuple of scale factors: after [reset],
    [_read_calibration], [initialize], a configuration call or a mode
    change, however it ends, the object holds the tuple it held before. *)
Theorem scale_factor_tuple_is_never_rebound (cls : pyclass) (fuel : nat)
    (rate oversample value : Z) (s : session Dev) :
  _oversample_scalefactor (self (reset fuel s).2) = _oversample_scalefactor (self s) /\
  _oversample_scalefactor (self (_read_calibration cls fuel s).2) =
    _oversample_scalefactor (self s) /\
  _oversample_scalefactor (self (initialize cls fuel s).2) =
    _oversample_scalefactor (self s) /\
  _oversample_scalefactor (self (pressure_configuration rate oversample s).2) =
    _oversample_scalefactor (self s) /\
  _oversample_scalefactor (self (temperature_configuration rate oversample s).2) =
    _oversample_scalefactor (self s) /\
  _oversample_scalefactor (self (set_mode value s).2) =
    _oversample_scalefactor (self s).
Proof.
  repeat split.
  - apply (keeps_reset fuel s).
  - apply (keeps_read_calibration cls fuel s).
  - apply (keeps_initialize cls fuel s).
  - apply (keeps_pressure_configuration rate oversample s).
  - apply (keeps_temperature_configuration rate oversample s).
  - apply (keeps_set_mode value s).
Qed.

(** X21: construction probes the address first, and nothing else happens
    when the probe is not answered: [ValueError], with the probe alone on
    the log and no attribute assigned.  When it is answered, the read of the
    product ID follows; on a mismatch that is the end of the log, and on a
    match the reset command is the next transaction, before anything else,
    and the object holds the scale-factor tuple of line 194 however
    construction ends. *)
Theorem construction_resets_first (cls : pyclass) (fuel : nat) (d : Dev) :
  let '(found, d1, probes) := probe_for_device d in
  (probes = [I2CProbeWrite] \/ probes = [I2CProbeWrite; I2CProbeRead]) /\
  if found then
    if (read_reg d1 _DPS310_PRODREVID).1 =? _DPS310_DEVICE_ID then
      (exists rest : list event,
         bus_log (construct cls fuel d).2 =
         probes ++ I2CWriteThenRead _DPS310_PRODREVID 1
                :: I2CWrite _DPS310_RESET [0x89] :: rest) /\
      _oversample_scalefactor (self (construct cls fuel d).2) = oversample_scalefactor
    else
      bus_log (construct cls fuel d).2 =
      probes ++ [I2CWriteThenRead _DPS310_PRODREVID 1]
  else
    construct cls fuel d = (Raise ValueError, mkSession unassigned d1 probes).
Proof.
  pose proof (probe_transfers d) as Hp.
  unfold construct, __init__, _device_id.
  rewrite bind_run, I2CDevice_run. cbn [self device bus_log app].
  destruct (probe_for_device d) as [[found d1] probes]. cbn [fst snd] in *.
  split; [exact Hp|].
  destruct found; [|reflexivity].
  rewrite bind_run, UnaryStruct_get_run. cbn [self device bus_log].
  destruct (Z.eqb_spec (read_reg d1 _DPS310_PRODREVID).1 _DPS310_DEVICE_ID) as [E|E];
    cbn [negb]; [|reflexivity].
  rewrite bind_run. unfold update_self at 1. cbn [self device bus_log].
  match goal with
  | |- context [initialize cls fuel ?s1] =>
      assert (Hc : continues
                     (mkSession (self s1) (write_reg (device s1) _DPS310_RESET 0x89)
                        (bus_log s1 ++ [I2CWrite _DPS310_RESET [0x89]]))
                     (initialize cls fuel s1).2);
      [|destruct Hc as [[es Hes] Htab]; cbn [self device bus_log] in Hes, Htab]
  end.
  - eapply continues_trans;
      [|apply (continues_after (reset fuel)); intros _; apply keeps_after_reset].
    exact (continues_after (set__reset 0x89)
             (fun _ => poll_until fuel _sensor_ready sleep) _
             (fun _ => keeps_poll_until fuel _sensor_ready sleep
                         (keeps_Bit_get _ _) keeps_sleep)).
  - split; [|exact Htab].
    exists es. rewrite Hes, <- !app_assoc. reflexivity.
Qed.
End Keeps.

(** ** Consistency of a channel *)

(** C6, as the code has it.  Configuring either channel with oversample
    level [i], one of the eight members of [Samples], on an object that
    holds the scale-factor tuple of line 194, succeeds for any rate.
    Afterwards the scale factor of the channel is [oversample_scalefactor[i]],
    its oversample field reads [i] and its shift bit reads [i > COUNT_8], so
    the channel is consistent; the scale factor, the oversample field and
    the shift bit of the other channel read as before, and the tuple is
    untouched.  This is all that keeps a channel consistent: a call with
    another oversample argument can leave it inconsistent. *)
Theorem configuration_follows_oversample_level (rate i : Z) (s : session (gmap Z Z)) :
  In i level_values ->
  _oversample_scalefactor (self s) = oversample_scalefactor ->
  (exists s' : session (gmap Z Z),
     pressure_configuration rate i s = (Ok tt, s') /\
     (_pressure_scale (self s') = oversample_scalefactor !! Z.to_nat i /\
      (_pressure_osbits s').1 = Ok i /\
      (_pressure_shiftbit s').1 = Ok (3 <? i) /\
      pressure_consistent s' = true) /\
     (_temp_scale (self s') = _temp_scale (self s) /\
      (_temp_osbits s').1 = (_temp_osbits s).1 /\
      (_temp_shiftbit s').1 = (_temp_shiftbit s).1 /\
      temperature_consistent s' = temperature_consistent s) /\
     _oversample_scalefactor (self s') = oversample_scalefactor) /\
  (exists s' : session (gmap Z Z),
     temperature_configuration rate i s = (Ok tt, s') /\
     (_temp_scale (self s') = oversample_scalefactor !! Z.to_nat i /\
      (_temp_osbits s').1 = Ok i /\
      (_temp_shiftbit s').1 = Ok (3 <? i) /\
      temperature_consistent s' = true) /\
     (_pressure_scale (self s') = _pressure_scale (self s) /\
      (_pressure_osbits s').1 = (_pressure_osbits s).1 /\
      (_pressure_shiftbit s').1 = (_pressure_shiftbit s).1 /\
      pressure_consistent s' = pressure_consistent s) /\
     _oversample_scalefactor (self s') = oversample_scalefactor).
Proof.
  intros Hi Htab.
  pose proof (proj1 (In_level_values i) Hi) as Hr.
  destruct (tuple_index_level i Hi) as [Hidx Hlook].
  assert (Hcons : consistent (Ok i) (Ok (3 <? i))
                    (Some (nth (Z.to_nat i) oversample_scalefactor 0)) = true).
  { unfold consistent. rewrite Hlook, !bool_decide_eq_true_2 by (assumption || reflexivity).
    now rewrite Bool.eqb_reflx. }
  split.
  - unfold pressure_configuration, set__pressure_ratebits, set__pressure_osbits,
      set__pressure_shiftbit.
    rewrite bind_run, regfile_RWBits_set, bind_run, regfile_RWBits_set.
    rewrite bind_run. unfold pure at 1. rewrite Samples_COUNT_8.
    rewrite bind_run, regfile_RWBit_set.
    run. cbn [self device bus_log]. rewrite Htab, Hidx.
    eexists. split; [reflexivity|].
    unfold pressure_consistent, temperature_consistent, _pressure_osbits,
      _pressure_shiftbit, _temp_osbits, _temp_shiftbit.
    rewrite !regfile_Bits_get, !regfile_Bit_get by lia.
    registers.
    rewrite !written_bit_bit by lia.
    rewrite !(written_bit_other _ 2 3) by lia.
    rewrite !written_byte_field by lia.
    cbn [self _pressure_scale _temp_scale _oversample_scalefactor set_pressure_scale].
    rewrite Hcons, Hlook. repeat split; (reflexivity || assumption).
  - unfold temperature_configuration, set__temp_ratebits, set__temp_osbits,
      set__temp_shiftbit, set__temp_measurement_src_bit, _calib_coeff_temp_src_bit.
    rewrite bind_run, regfile_RWBits_set, bind_run, regfile_RWBits_set.
    rewrite bind_run. unfold get_self at 1. cbn [self].
    rewrite bind_run. unfold pure at 1. rewrite Htab, Hidx.
    rewrite bind_run. unfold update_self at 1. cbn [self device bus_log].
    rewrite bind_run. unfold pure at 1. rewrite Samples_COUNT_8.
    rewrite bind_run, regfile_RWBit_set, bind_run, Bit_get_run, regfile_RWBit_set.
    cbn [self device bus_log].
    eexists. split; [reflexivity|].
    unfold pressure_consistent, temperature_consistent, _pressure_osbits,
      _pressure_shiftbit, _temp_osbits, _temp_shiftbit.
    rewrite !regfile_Bits_get, !regfile_Bit_get by lia.
    cbn [read_reg regfile_Bus fst snd].
    registers.
    rewrite !written_bit_field by lia.
    rewrite !written_bit_bit by lia.
    rewrite !(written_bit_other _ 3 2) by lia.
    rewrite !written_byte_field by lia.
    cbn [self _pressure_scale _temp_scale _oversample_scalefactor set_temp_scale].
    rewrite Hcons, Hlook. repeat split; (reflexivity || assumption).
Qed.

Lemma configuration_follows_oversample_level_witness :
  (exists s' : session (gmap Z Z),
     pressure_configuration 2 6 consistent_session = (Ok tt, s') /\
     (_pressure_scale (self s') = oversample_scalefactor !! Z.to_nat 6 /\
      (_pressure_osbits s').1 = Ok 6 /\
      (_pressure_shiftbit s').1 = Ok (3 <? 6) /\
      pressure_consistent s' = true) /\
     (_temp_scale (self s') = _temp_scale (self consistent_session) /\
      (_temp_osbits s').1 = (_temp_osbits consistent_session).1 /\
      (_temp_shiftbit s').1 = (_temp_shiftbit consistent_session).1 /\
      temperature_consistent s' = temperature_consistent consistent_session) /\
     _oversample_scalefactor (self s') = oversample_scalefactor) /\
  (exists s' : session (gmap Z Z),
     temperature_configuration 2 6 consistent_session = (Ok tt, s') /\
     (_temp_scale (self s') = oversample_scalefactor !! Z.to_nat 6 /\
      (_temp_osbits s').1 = Ok 6 /\
      (_temp_shiftbit s').1 = Ok (3 <? 6) /\
      temperature_consistent s' = true) /\
     (_pressure_scale (self s') = _pressure_scale (self consistent_session) /\
      (_pressure_osbits s').1 = (_pressure_osbits consistent_session).1 /\
      (_pressure_shiftbit s').1 = (_pressure_shiftbit consistent_session).1 /\
      pressure_consistent s' = pressure_consistent consistent_session) /\
     _oversample_scalefactor (self s') = oversample_scalefactor).
Proof.
  apply (configuration_follows_oversample_level 2 6 consistent_session).
  - unfold level_values. simpl. tauto.
  - vm_compute. reflexivity.
Defined.

(** Not every configuration call leaves the channel consistent.  From a
    session with both channels consistent, an oversample argument of -1 is
    accepted: the oversample field then reads 15, the scale factor is the
    one of [COUNT_128] and the shift bit is clear.  An oversample argument
    of 8 raises [IndexError] after the writes: the oversample field reads 8
    and the pressure shift bit is set, with the scale factor of [COUNT_1]
    still in place. *)
Lemma configuration_can_break_consistency :
  (pressure_consistent consistent_session = true /\
   temperature_consistent consistent_session = true) /\
  ((pressure_configuration 6 (-1) consistent_session).1 = Ok tt /\
   (_pressure_osbits (pressure_configuration 6 (-1) consistent_session).2).1 = Ok 15 /\
   (_pressure_shiftbit (pressure_configuration 6 (-1) consistent_session).2).1 =
     Ok false /\
   _pressure_scale (self (pressure_configuration 6 (-1) consistent_session).2) =
     Some 2088960 /\
   pressure_consistent (pressure_configuration 6 (-1) consistent_session).2 = false) /\
  ((pressure_configuration 6 8 consistent_session).1 = Raise IndexError /\
   (_pressure_osbits (pressure_configuration 6 8 consistent_session).2).1 = Ok 8 /\
   (_pressure_shiftbit (pressure_configuration 6 8 consistent_session).2).1 =
     Ok true /\
   _pressure_scale (self (pressure_configuration 6 8 consistent_session).2) =
     Some 524288 /\
   pressure_consistent (pressure_configuration 6 8 consistent_session).2 = false) /\
  ((temperature_configuration 6 (-1) consistent_session).1 = Ok tt /\
   temperature_consistent (temperature_configuration 6 (-1) consistent_session).2 =
     false) /\
  ((temperature_configuration 6 8 consistent_session).1 = Raise IndexError /\
   temperature_consistent (temperature_configuration 6 8 consistent_session).2 =
     false).
Proof. repeat split; vm_compute; reflexivity. Qed.
